(** * node-network-devtools: the CDP projection of request records

    A shallow embedding of [packages/network-debugger/src/common.ts]
    (the request record and its call frames) and of
    [packages/network-debugger/src/core/index.ts] (the DevTools server:
    [toMimeType], [updateTimestamp], [open], [send],
    [requestWillBeSent], [responseReceived]).

    JavaScript strings are modelled by [string]; every pattern the code
    searches for is ASCII, so searching the UTF-8 bytes agrees with
    searching UTF-16 code units. *)

From Stdlib Require Import String Ascii List ZArith QArith Bool Lia.
From Stdlib Require Import DecimalString.
From Stdlib Require Import Sorted.
Import ListNotations.

Local Open Scope string_scope.

(** * Part I: the embedding *)

(** ** JavaScript string primitives used by the code *)

Module JSString.

(** [s.startsWith(p)] *)
Fixpoint startsWith (p s : string) : bool :=
  match p, s with
  | EmptyString, _ => true
  | String a p', String b s' => if Ascii.eqb a b then startsWith p' s' else false
  | String _ _, EmptyString => false
  end.

(** [s.includes(p)], and [/p/.test(s)] for a pattern [p] made of plain
    letters: [p] occurs at some position of [s]. *)
Fixpoint includes (p s : string) : bool :=
  if startsWith p s then true
  else match s with
       | EmptyString => false
       | String _ s' => includes p s'
       end.

(** [s.split(c)[0]]: the text of [s] before the first [c], all of [s]
    when [c] does not occur. *)
Fixpoint split0 (c : ascii) (s : string) : string :=
  match s with
  | EmptyString => EmptyString
  | String a s' => if Ascii.eqb a c then EmptyString else String a (split0 c s')
  end.

(** Truthiness of a string: the empty string is the only falsy one. *)
Definition truthy (s : string) : bool :=
  match s with EmptyString => false | String _ _ => true end.

(** [a || b] where [a] is a string or [undefined]. *)
Definition orElse (a : option string) (b : string) : string :=
  match a with
  | Some s => if truthy s then s else b
  | None => b
  end.

(** [a || 0] where [a] is an integer or [undefined]. *)
Definition orZero (a : option Z) : Z :=
  match a with
  | Some n => n
  | None => 0%Z
  end.

(** [a === b] on values that are a string or [undefined]. *)
Definition strict_eq (a : option string) (b : string) : bool :=
  match a with
  | Some s => String.eqb s b
  | None => false
  end.

(** A template literal's rendering of an integer. *)
Definition ofZ (n : Z) : string := NilZero.string_of_int (Z.to_int n).

(** [s.toLowerCase()] on ASCII letters. *)
Definition lowerAscii (a : ascii) : ascii :=
  let n := nat_of_ascii a in
  if (65 <=? n)%nat && (n <=? 90)%nat then ascii_of_nat (n + 32) else a.

Fixpoint toLowerCase (s : string) : string :=
  match s with
  | EmptyString => EmptyString
  | String a s' => String (lowerAscii a) (toLowerCase s')
  end.

(** [p] occurs in [s]: what [includes] and a literal regular expression
    decide. *)
Definition occurs (p s : string) : Prop := exists l r, s = l ++ p ++ r.

End JSString.

(** ** JSON values and [JSON.stringify] *)

Module JSON.

(** The values a record's body can hold once the record has crossed the
    process boundary as JSON.  [JNum] holds the numbers that are safe
    integers (at most 2^53 in magnitude): they are the ones a double
    holds exactly and prints digit for digit.  Larger numbers and
    fractions have no counterpart here.  An object lists its properties
    in enumeration order. *)
#[local] Unset Elimination Schemes.
Inductive JSValue : Type :=
| JNull
| JBool (b : bool)
| JNum (n : Z)
| JStr (s : string)
| JArr (items : list JSValue)
| JObj (props : list (string * JSValue)).
#[local] Set Elimination Schemes.

(** The truthiness the conditional operator tests: [null], [false], [0]
    and the empty string are falsy, objects and arrays are truthy. *)
Definition truthy (v : JSValue) : bool :=
  match v with
  | JNull => false
  | JBool b => b
  | JNum n => negb (n =? 0)%Z
  | JStr s => JSString.truthy s
  | JArr _ | JObj _ => true
  end.

(** Truthiness of a value that may be [undefined]. *)
Definition truthy_opt (v : option JSValue) : bool :=
  match v with
  | Some x => truthy x
  | None => false
  end.

Definition chr (n : nat) : string := String (ascii_of_nat n) EmptyString.

Definition hexDigit (n : nat) : string :=
  match n with
  | 10 => "a" | 11 => "b" | 12 => "c" | 13 => "d" | 14 => "e" | 15 => "f"
  | _ => chr (48 + n)
  end%nat.

(** One character of [QuoteJSONString]. *)
Definition quoteChar (a : ascii) : string :=
  let n := nat_of_ascii a in
  match n with
  | 8 => chr 92 ++ "b"
  | 9 => chr 92 ++ "t"
  | 10 => chr 92 ++ "n"
  | 12 => chr 92 ++ "f"
  | 13 => chr 92 ++ "r"
  | 34 => chr 92 ++ chr 34
  | 92 => chr 92 ++ chr 92
  | _ => if (n <? 32)%nat
         then chr 92 ++ "u00" ++ hexDigit (n / 16) ++ hexDigit (n mod 16)
         else String a EmptyString
  end%nat.

Fixpoint quoteChars (s : string) : string :=
  match s with
  | EmptyString => EmptyString
  | String a s' => quoteChar a ++ quoteChars s'
  end.

Definition QuoteJSONString (s : string) : string :=
  chr 34 ++ quoteChars s ++ chr 34.

Fixpoint join (sep : string) (parts : list string) : string :=
  match parts with
  | [] => EmptyString
  | [x] => x
  | x :: rest => x ++ sep ++ join sep rest
  end.

(** [JSON.stringify(v)] without indentation. *)
Fixpoint JSON_stringify (v : JSValue) : string :=
  match v with
  | JNull => "null"
  | JBool true => "true"
  | JBool false => "false"
  | JNum n => JSString.ofZ n
  | JStr s => QuoteJSONString s
  | JArr items => "[" ++ join "," (map JSON_stringify items) ++ "]"
  | JObj props =>
      "{" ++ join "," (map (fun kv => let '(k, x) := kv in
                                      QuoteJSONString k ++ ":" ++ JSON_stringify x)
                           props) ++ "}"
  end.

End JSON.

Import JSON.

(** ** [common.ts]: the request record *)

(** Modelled from the spec: the frame type of [utils/stack], which is not
    among the sources.  By section 4.1 any field of a captured frame may
    be unresolved; the constructor reads these four properties and guards
    each of them against [undefined]. *)
Record StackFrame : Type := {
  fileName : option string;
  functionName : option string;
  lineNumber : option Z;
  columnNumber : option Z
}.

(** [interface CDPCallFrame] *)
Module CDPCallFrame.
Record t : Type := {
  columnNumber : Z;
  functionName : string;
  lineNumber : Z;
  url : string;
  scriptId : option string
}.
End CDPCallFrame.

(** [initiator?: { type; stack: { callFrames } }] *)
Module Initiator.
Record t : Type := {
  type : string;
  callFrames : list CDPCallFrame.t
}.
End Initiator.

(** [responseInfo: Partial<{ encodedDataLength; dataLength }>] *)
Module ResponseInfo.
Record t : Type := {
  encodedDataLength : option Z;
  dataLength : option Z
}.
Definition empty : t := {| encodedDataLength := None; dataLength := None |}.
End ResponseInfo.

(** [interface DebuggerJSON] *)
Module DebuggerJSON.
Record t : Type := {
  webSocketDebuggerUrl : string;
  url : string;
  id : string
}.
End DebuggerJSON.

(** [class RequestDetail].  A property the constructor leaves unset is
    [None] ([undefined]).  [Headers] is the container of headers, whatever
    the capture path stored. *)
Module RequestDetail.

Record t {Headers : Type} : Type := {
  id : string;
  url : option string;
  method : option string;
  cookies : option JSValue;
  requestHeaders : option Headers;
  requestData : option JSValue;
  responseData : option JSValue;
  responseStatusCode : option Z;
  responseHeaders : option Headers;
  responseInfo : ResponseInfo.t;
  requestStartTime : option Q;
  requestEndTime : option Q;
  initiator : option Initiator.t
}.
Arguments t : clear implicits.

(** The body of [frames.map((frame) => ...)]. *)
Definition callFrame (frame : StackFrame) : CDPCallFrame.t :=
  let fileName := JSString.orElse (fileName frame) "" in
  {| CDPCallFrame.columnNumber := JSString.orZero (columnNumber frame);
     CDPCallFrame.functionName := JSString.orElse (functionName frame) "";
     CDPCallFrame.lineNumber := JSString.orZero (lineNumber frame);
     CDPCallFrame.url :=
       if JSString.startsWith "/" fileName then "file://" ++ fileName else fileName;
     CDPCallFrame.scriptId := None |}.

(** [constructor()].  [random_id] is the value of
    [Math.random().toString(36).slice(2)] and [frames] the value of
    [initiatorStackPipe(getStackFrames())]. *)
Definition constructor {Headers : Type} (random_id : string) (frames : list StackFrame)
  : t Headers :=
  let callFrames := map callFrame frames in
  {| id := random_id;
     url := None;
     method := None;
     cookies := None;
     requestHeaders := None;
     requestData := None;
     responseData := None;
     responseStatusCode := None;
     responseHeaders := None;
     responseInfo := ResponseInfo.empty;
     requestStartTime := None;
     requestEndTime := None;
     initiator :=
       if (0 <? length callFrames)%nat
       then Some {| Initiator.type := "script"; Initiator.callFrames := callFrames |}
       else None |}.

End RequestDetail.

(** [IS_DEV_MODE = process.env.NETWORK_DEBUG_MODE === 'true'] *)
Definition IS_DEV_MODE (NETWORK_DEBUG_MODE : option string) : bool :=
  JSString.strict_eq NETWORK_DEBUG_MODE "true".

(** ** [core/index.ts]: the DevTools server *)

(** [RequestHeaderPipe] is declared in [core/pipe], which is not among the
    sources; the server uses it through one operation,
    [new RequestHeaderPipe(headers).getHeader(name)], which yields a
    header's value or [undefined].  The methods below take any
    implementation of it. *)
Class RequestHeaderPipe (Headers : Type) : Type := {
  getHeader : option Headers -> string -> option string
}.

(** The [request] object of [Network.requestWillBeSent]. *)
Module CDPRequest.
Record t {Headers : Type} : Type := {
  url : option string;
  method : option string;
  headers : option Headers;
  initialPriority : string;
  mixedContentType : string;
  postData : option JSValue
}.
Arguments t : clear implicits.
End CDPRequest.

(** The [response] object of [Network.responseReceived]. *)
Module CDPResponse.
Record t {Headers : Type} : Type := {
  url : option string;
  status : option Z;
  statusText : string;
  headers : option Headers;
  connectionReused : bool;
  encodedDataLength : option Z;
  charset : string;
  mimeType : string
}.
Arguments t : clear implicits.
End CDPResponse.

(** The four messages the server writes, with their [params]. *)
Inductive CDPMessage {Headers : Type} : Type :=
| Network_requestWillBeSent
    (requestId frameId loaderId : string) (request : CDPRequest.t Headers)
    (timestamp : Q) (wallTime : option Q) (initiator : option Initiator.t)
    (type : string)
| Network_responseReceived
    (requestId frameId loaderId : string) (timestamp : Q) (type : string)
    (response : CDPResponse.t Headers)
| Network_dataReceived
    (requestId : string) (timestamp : Q) (dataLength encodedDataLength : option Z)
| Network_loadingFinished
    (requestId : string) (timestamp : Q) (encodedDataLength : option Z).
Arguments CDPMessage : clear implicits.

Module Msg.
Section Fields.
Context {Headers : Type}.

Definition method (m : CDPMessage Headers) : string :=
  match m with
  | Network_requestWillBeSent _ _ _ _ _ _ _ _ => "Network.requestWillBeSent"
  | Network_responseReceived _ _ _ _ _ _ => "Network.responseReceived"
  | Network_dataReceived _ _ _ _ => "Network.dataReceived"
  | Network_loadingFinished _ _ _ => "Network.loadingFinished"
  end.

Definition requestId (m : CDPMessage Headers) : string :=
  match m with
  | Network_requestWillBeSent i _ _ _ _ _ _ _ => i
  | Network_responseReceived i _ _ _ _ _ => i
  | Network_dataReceived i _ _ _ => i
  | Network_loadingFinished i _ _ => i
  end.

Definition timestamp (m : CDPMessage Headers) : Q :=
  match m with
  | Network_requestWillBeSent _ _ _ _ t _ _ _ => t
  | Network_responseReceived _ _ _ t _ _ => t
  | Network_dataReceived _ t _ _ => t
  | Network_loadingFinished _ t _ => t
  end.

Definition frameId (m : CDPMessage Headers) : option string :=
  match m with
  | Network_requestWillBeSent _ f _ _ _ _ _ _ => Some f
  | Network_responseReceived _ f _ _ _ _ => Some f
  | _ => None
  end.

Definition loaderId (m : CDPMessage Headers) : option string :=
  match m with
  | Network_requestWillBeSent _ _ l _ _ _ _ _ => Some l
  | Network_responseReceived _ _ l _ _ _ => Some l
  | _ => None
  end.

Definition type (m : CDPMessage Headers) : option string :=
  match m with
  | Network_requestWillBeSent _ _ _ _ _ _ _ ty => Some ty
  | Network_responseReceived _ _ _ _ ty _ => Some ty
  | _ => None
  end.

Definition request (m : CDPMessage Headers) : option (CDPRequest.t Headers) :=
  match m with
  | Network_requestWillBeSent _ _ _ rq _ _ _ _ => Some rq
  | _ => None
  end.

Definition response (m : CDPMessage Headers) : option (CDPResponse.t Headers) :=
  match m with
  | Network_responseReceived _ _ _ _ _ rs => Some rs
  | _ => None
  end.

End Fields.
End Msg.

Definition frameId : string := "517.528".
Definition loaderId : string := "517.529".

(** [toMimeType] *)
Definition toMimeType (contentType : string) : string :=
  JSString.orElse (Some (JSString.split0 ";" contentType)) "text/plain".

Module DevtoolServer.

(** The fields of [class DevtoolServer] the projection reads and writes. *)
Record t : Type := {
  port : Z;
  timestamp : Q;
  startTime : Z
}.

(** What the server acts on: the wall clock, as the successive values of
    [Date.now()] in milliseconds, and the attached socket, as the
    messages handed to [socket.send] once it is attached, oldest first. *)
Record World {Headers : Type} : Type := {
  clock : nat -> Z;
  reads : nat;
  wire : list (CDPMessage Headers)
}.
Arguments World : clear implicits.

Section Methods.
Context {Headers : Type} `{RequestHeaderPipe Headers}.

Definition State : Type := t * World Headers.

(** A method: a state transformer with a result. *)
Definition M (A : Type) : Type := State -> A * State.

Definition ret {A : Type} (a : A) : M A := fun st => (a, st).

Definition bind {A B : Type} (m : M A) (k : A -> M B) : M B :=
  fun st => let '(a, st') := m st in k a st'.

Definition exec {A : Type} (m : M A) (st : State) : State := snd (m st).

#[local] Notation "x <- m ;; k" := (bind m (fun x => k))
  (at level 61, m at next level, right associativity).
#[local] Notation "m ;; k" := (bind m (fun _ => k))
  (at level 61, right associativity).

(** [Date.now()] *)
Definition Date_now : M Z :=
  fun '(srv, w) =>
    (clock w (reads w),
     (srv, {| clock := clock w; reads := S (reads w); wire := wire w |})).

(** [this.timestamp] *)
Definition this_timestamp : M Q := fun '(srv, w) => (timestamp srv, (srv, w)).

(** [new DevtoolServer({ port })]: the field initialisers. *)
Definition constructor (port : Z) (w : World Headers) : State :=
  let '(now, (_, w')) :=
    Date_now ({| port := port; timestamp := 0; startTime := 0 |}, w) in
  ({| port := port; timestamp := 0; startTime := now |}, w').

(** [updateTimestamp]: the quotient is the exact one; the code rounds it
    to the nearest double, which keeps the order. *)
Definition updateTimestamp : M unit :=
  now <- Date_now ;;
  fun '(srv, w) =>
    (tt, ({| port := port srv;
             timestamp := (now - startTime srv) # 1000;
             startTime := startTime srv |}, w)).

(** [send]: every call waits on the one [this.socket] promise, so the
    calls reach [socket.send] in the order they were made. *)
Definition send (message : CDPMessage Headers) : M unit :=
  fun '(srv, w) =>
    (tt, (srv, {| clock := clock w; reads := reads w;
                  wire := (wire w ++ [message])%list |})).

(** [contentType?.includes('application/json')] *)
Definition includes_json (contentType : option string) : bool :=
  match contentType with
  | Some c => JSString.includes "application/json" c
  | None => false
  end.

(** The message [requestWillBeSent] sends, given the [contentType] it
    read and the value of [this.timestamp]. *)
Definition requestWillBeSent_message (request : RequestDetail.t Headers)
  (contentType : option string) (timestamp : Q) : CDPMessage Headers :=
  Network_requestWillBeSent
    (RequestDetail.id request)
    frameId
    loaderId
    {| CDPRequest.url := RequestDetail.url request;
       CDPRequest.method := RequestDetail.method request;
       CDPRequest.headers := RequestDetail.requestHeaders request;
       CDPRequest.initialPriority := "High";
       CDPRequest.mixedContentType := "none";
       CDPRequest.postData :=
         match RequestDetail.requestData request with
         | Some requestData =>
             if JSON.truthy requestData
             then Some (if includes_json contentType
                        then JStr (JSON_stringify requestData)
                        else requestData)
             else None
         | None => None
         end |}
    timestamp
    (RequestDetail.requestStartTime request)
    (RequestDetail.initiator request)
    "Fetch".

(** [requestWillBeSent] *)
Definition requestWillBeSent (request : RequestDetail.t Headers) : M unit :=
  updateTimestamp ;;
  let contentType := getHeader (RequestDetail.requestHeaders request) "content-type" in
  timestamp <- this_timestamp ;;
  send (requestWillBeSent_message request contentType timestamp).

(** The [type] of [responseReceived]: the first pattern that matches. *)
Definition resourceType (contentType : string) : string :=
  if JSString.includes "image" contentType then "Image"
  else if JSString.includes "javascript" contentType then "Script"
  else if JSString.includes "css" contentType then "Stylesheet"
  else if JSString.includes "html" contentType then "Document"
  else "Other".

(** The three messages [responseReceived] sends. *)
Definition responseReceived_message (request : RequestDetail.t Headers)
  (contentType type : string) (timestamp : Q) : CDPMessage Headers :=
  Network_responseReceived
    (RequestDetail.id request)
    frameId
    loaderId
    timestamp
    type
    {| CDPResponse.url := RequestDetail.url request;
       CDPResponse.status := RequestDetail.responseStatusCode request;
       CDPResponse.statusText :=
         match RequestDetail.responseStatusCode request with
         | Some code => if (code =? 200)%Z then "OK" else ""
         | None => ""
         end;
       CDPResponse.headers := RequestDetail.responseHeaders request;
       CDPResponse.connectionReused := false;
       CDPResponse.encodedDataLength :=
         ResponseInfo.encodedDataLength (RequestDetail.responseInfo request);
       CDPResponse.charset := "utf-8";
       CDPResponse.mimeType := toMimeType contentType |}.

Definition dataReceived_message (request : RequestDetail.t Headers) (timestamp : Q)
  : CDPMessage Headers :=
  Network_dataReceived
    (RequestDetail.id request)
    timestamp
    (ResponseInfo.dataLength (RequestDetail.responseInfo request))
    (ResponseInfo.encodedDataLength (RequestDetail.responseInfo request)).

Definition loadingFinished_message (request : RequestDetail.t Headers) (timestamp : Q)
  : CDPMessage Headers :=
  Network_loadingFinished
    (RequestDetail.id request)
    timestamp
    (ResponseInfo.encodedDataLength (RequestDetail.responseInfo request)).

(** The [contentType] of [responseReceived]. *)
Definition responseContentType (request : RequestDetail.t Headers) : string :=
  JSString.orElse (getHeader (RequestDetail.responseHeaders request) "content-type")
                  "text/plain; charset=utf-8".

(** [responseReceived] *)
Definition responseReceived (request : RequestDetail.t Headers) : M unit :=
  updateTimestamp ;;
  let contentType := responseContentType request in
  let type := resourceType contentType in
  timestamp <- this_timestamp ;;
  send (responseReceived_message request contentType type timestamp) ;;
  updateTimestamp ;;
  timestamp <- this_timestamp ;;
  send (dataReceived_message request timestamp) ;;
  updateTimestamp ;;
  timestamp <- this_timestamp ;;
  send (loadingFinished_message request timestamp).

(** Modelled from the spec: the caller of the two methods is the debugger
    process ([fork]), which is not among the sources; by section 4.10 it
    projects a completed record with [requestWillBeSent] and then
    [responseReceived]. *)
Definition project (request : RequestDetail.t Headers) : M unit :=
  requestWillBeSent request ;;
  responseReceived request.

(** The messages a method hands to the socket from state [st]. *)
Definition emits {A : Type} (m : M A) (st : State) (ms : list (CDPMessage Headers)) : Prop :=
  wire (snd (exec m st)) = (wire (snd st) ++ ms)%list.

End Methods.
Arguments State : clear implicits.
Arguments M : clear implicits.
End DevtoolServer.

(** ** [DevtoolServer.open]: launching the browser *)

Module Browser.

(** The process the server runs in: its environment variable
    [NETWORK_DEBUG_MODE], [process.platform], the constant
    [REMOTE_DEBUGGER_PORT], and what the k-th request to the remote
    debugger's [/json] answers ([None]: the request fails). *)
Record Host : Type := {
  NETWORK_DEBUG_MODE : option string;
  platform : string;
  REMOTE_DEBUGGER_PORT : Z;
  remoteJSON : nat -> option (list DebuggerJSON.t)
}.

Inductive PageCommand : Type :=
| Page_navigate (url : string)
| Page_close.

(** The calls [open] makes to the outside, console output apart, in the
    order it makes them.  [DebuggerWs socketUrl command] is the call
    [manageDebuggerWs(socketUrl, ...)]: it constructs a WebSocket to
    [socketUrl] and returns; [command] is what that socket sends from its
    ['open'] handler, in a later turn of the event loop, if it opens.
    [Launch] is the call of the launcher, [open(url, { app })]. *)
Inductive Effect : Type :=
| DebuggerWs (socketUrl : string) (command : PageCommand)
| Launch (url : string) (arguments : list string).

(** How a call of [open] stands: it returned the browser process, it
    threw, or it is still waiting for the remote debugger to answer. *)
Inductive Outcome : Type :=
| Returned
| Threw
| Waiting.

(** [dbHistoryJson.findIndex((e) => e.url === url)] *)
Fixpoint findIndex (url : string) (l : list DebuggerJSON.t) : Z :=
  match l with
  | [] => (-1)%Z
  | e :: rest =>
      if String.eqb (DebuggerJSON.url e) url then 0%Z
      else let i := findIndex url rest in
           if (i =? -1)%Z then (-1)%Z else (i + 1)%Z
  end.

(** [manageDebuggerWs(socketUrl, command)]: the socket constructed, with
    the command its ['open'] handler will send. *)
Definition manageDebuggerWs (url socketUrl : string) (open_command : bool) : Effect :=
  DebuggerWs socketUrl (if open_command then Page_navigate url else Page_close).

(** The [setInterval] loop: ask [/json] every 500 ms, from request number
    [k], until it answers; [fuel] bounds the rounds observed. *)
Fixpoint poll (h : Host) (fuel k : nat) : option (list DebuggerJSON.t) :=
  match fuel with
  | O => None
  | S fuel' =>
      match remoteJSON h k with
      | Some json => Some json
      | None => poll h fuel' (S k)
      end
  end.

Definition inspectorUrl (port : Z) : string :=
  "devtools://devtools/bundled/inspector.html?ws=localhost:" ++ JSString.ofZ port.

(** [open()].  The guard on [IS_DEV_MODE] is commented out in the source,
    so the body starts at the [try].  The list gives the calls in the
    order of the code: the socket for [Page.close] is constructed in the
    [try] block and the launcher is called next, in the same turn, so
    that [Page.close] itself is sent only after the launcher was called. *)
Definition open (h : Host) (srv : DevtoolServer.t) (fuel : nat) : list Effect * Outcome :=
  let url := inspectorUrl (DevtoolServer.port srv) in
  let not_darwin := negb (String.eqb (platform h) "darwin") in
  let tried :=
    match remoteJSON h 0 with
    | Some dbHistoryJson =>
        let idx := findIndex url dbHistoryJson in
        if negb (idx =? -1)%Z
        then match nth_error dbHistoryJson (Z.to_nat idx) with
             | Some e => [manageDebuggerWs url (DebuggerJSON.webSocketDebuggerUrl e) false]
             | None => []
             end
        else []
    | None => []
    end in
  let launch :=
    Launch url
      [if not_darwin
       then "--remote-debugging-port=" ++ JSString.ofZ (REMOTE_DEBUGGER_PORT h)
       else ""] in
  if not_darwin
  then match poll h fuel 1 with
       | None => ((tried ++ [launch])%list, Waiting)
       | Some json =>
           match json with
           | e :: _ =>
               ((tried ++ [launch;
                           manageDebuggerWs url (DebuggerJSON.webSocketDebuggerUrl e) true])%list,
                Returned)
           | [] => ((tried ++ [launch])%list, Threw)
           end
       end
  else ((tried ++ [launch])%list, Returned).

(** [server.on('listening', () => { ...; this.open() })] *)
Definition on_listening (h : Host) (srv : DevtoolServer.t) (fuel : nat) : list Effect * Outcome :=
  open h srv fuel.

(** The browser is launched when a [Launch] is among the effects. *)
Definition launches (es : list Effect) : bool :=
  existsb (fun e => match e with Launch _ _ => true | _ => false end) es.

End Browser.

(** ** The header pipe used to run the methods on concrete records *)

(** Modelled from the spec: [RequestHeaderPipe] of [core/pipe], which is
    not among the sources.  By section 4.2, [getHeader(name)] is a
    case-insensitive lookup that returns the first value or [undefined];
    the container lists the headers in insertion order. *)
Module HeaderPipe.

Definition Headers : Type := list (string * string).

Fixpoint lookup (name : string) (hs : Headers) : option string :=
  match hs with
  | [] => None
  | (k, v) :: rest =>
      if String.eqb (JSString.toLowerCase k) (JSString.toLowerCase name)
      then Some v
      else lookup name rest
  end.

#[global] Instance pipe : RequestHeaderPipe Headers := {
  getHeader hs name :=
    match hs with
    | Some l => lookup name l
    | None => None
    end
}.

End HeaderPipe.

(** ** The specification's vocabulary *)

(** The definitions of this module follow the words of the specification;
    they are what the code is compared with. *)
Module Spec.

(** [s.endsWith(p)] *)
Fixpoint endsWith (p s : string) : bool :=
  if String.eqb p s then true
  else match s with
       | EmptyString => false
       | String _ s' => endsWith p s'
       end.

(** Section 4.10, the classification as the specification words it, read
    on the media type (the content-type without its parameters):
    [image/*] gives Image, [*/javascript] Script, [*/css] Stylesheet,
    [text/html] Document, anything else Other. *)
Definition resourceType (contentType : string) : string :=
  let media := JSString.split0 ";" contentType in
  if JSString.startsWith "image/" media then "Image"
  else if endsWith "/javascript" media then "Script"
  else if endsWith "/css" media then "Stylesheet"
  else if String.eqb media "text/html" then "Document"
  else "Other".

(** Section 4.10: the content-type stripped of any [; ...] suffix. *)
Definition mimeType (contentType : string) : string :=
  JSString.split0 ";" contentType.

(** Section 4.10: the request body exists. *)
Definition bodyExists {Headers : Type} (request : RequestDetail.t Headers) : bool :=
  match RequestDetail.requestData request with
  | Some _ => true
  | None => false
  end.

End Spec.

(** The timestamp that the [k]-th coming reading of the clock yields:
    the seconds between the server's start and that reading. *)
Definition stamp {Headers : Type} (st : DevtoolServer.State Headers) (k : nat) : Q :=
  (DevtoolServer.clock (snd st) (k + DevtoolServer.reads (snd st))
   - DevtoolServer.startTime (fst st)) # 1000.

(** The seconds between the start of a server constructed on [w], which
    is the reading of the clock its constructor takes, and the [k]-th
    reading of the clock. *)
Definition sinceStart {Headers : Type} (w : DevtoolServer.World Headers) (k : nat) : Q :=
  (DevtoolServer.clock w k - DevtoolServer.clock w (DevtoolServer.reads w)) # 1000.

(** The server has run on from [st] to [st']: the same clock and start,
    and no reading of the clock undone. *)
Definition later {Headers : Type} (st st' : DevtoolServer.State Headers) : Prop :=
  DevtoolServer.clock (snd st') = DevtoolServer.clock (snd st)
  /\ DevtoolServer.startTime (fst st') = DevtoolServer.startTime (fst st)
  /\ (DevtoolServer.reads (snd st) <= DevtoolServer.reads (snd st'))%nat.

(** The wall clock never runs backwards. *)
Definition monotone (clock : nat -> Z) : Prop :=
  forall i j, (i <= j)%nat -> (clock i <= clock j)%Z.

(** The content-type of a request names JSON, as [requestWillBeSent]
    tests it. *)
Definition jsonLike `{RequestHeaderPipe} (request : RequestDetail.t Headers) : Prop :=
  exists c, getHeader (RequestDetail.requestHeaders request) "content-type" = Some c
            /\ JSString.occurs "application/json" c.

(** Records and a server to run the methods on. *)
Module Fixture.

Definition world : DevtoolServer.World HeaderPipe.Headers :=
  {| DevtoolServer.clock := fun k => (1700000000000 + 7 * Z.of_nat k)%Z;
     DevtoolServer.reads := 0;
     DevtoolServer.wire := [] |}.

Definition state : DevtoolServer.State HeaderPipe.Headers :=
  DevtoolServer.constructor 5270 world.

Definition dq : string := JSON.chr 34.

(** A [POST] with content-type [application/json], answered. *)
Definition exchange (body : option JSValue) (status : Z) (responseHeaders : HeaderPipe.Headers)
  : RequestDetail.t HeaderPipe.Headers :=
  {| RequestDetail.id := "k3x9q2";
     RequestDetail.url := Some "http://x/y";
     RequestDetail.method := Some "POST";
     RequestDetail.cookies := None;
     RequestDetail.requestHeaders := Some [("Content-Type", "application/json")];
     RequestDetail.requestData := body;
     RequestDetail.responseData := None;
     RequestDetail.responseStatusCode := Some status;
     RequestDetail.responseHeaders := Some responseHeaders;
     RequestDetail.responseInfo :=
       {| ResponseInfo.encodedDataLength := Some 5%Z; ResponseInfo.dataLength := Some 5%Z |};
     RequestDetail.requestStartTime := Some (1700000000 # 1);
     RequestDetail.requestEndTime := Some (1700000001 # 1);
     RequestDetail.initiator := None |}.

Definition host (debug_mode : option string) : Browser.Host :=
  {| Browser.NETWORK_DEBUG_MODE := debug_mode;
     Browser.platform := "linux";
     Browser.REMOTE_DEBUGGER_PORT := 9333;
     Browser.remoteJSON := fun k =>
       if (k <? 3)%nat then None
       else Some [{| DebuggerJSON.webSocketDebuggerUrl := "ws://127.0.0.1:9333/devtools/page/1";
                     DebuggerJSON.url := "about:blank";
                     DebuggerJSON.id := "1" |}] |}.

End Fixture.

(** ** Sequences of calls of the two projecting methods *)

(** Whatever a caller does with the server comes down to a sequence of
    calls of [requestWillBeSent] and [responseReceived]. *)
Module Calls.
Section Run.
Context {Headers : Type} `{RequestHeaderPipe Headers}.

Inductive Call : Type :=
| CallRequestWillBeSent (request : RequestDetail.t Headers)
| CallResponseReceived (request : RequestDetail.t Headers).

Definition call (c : Call) : DevtoolServer.M Headers unit :=
  match c with
  | CallRequestWillBeSent request => DevtoolServer.requestWillBeSent request
  | CallResponseReceived request => DevtoolServer.responseReceived request
  end.

Fixpoint run (cs : list Call) : DevtoolServer.M Headers unit :=
  match cs with
  | [] => DevtoolServer.ret tt
  | c :: rest => DevtoolServer.bind (call c) (fun _ => run rest)
  end.

(** The record a call projects. *)
Definition record (c : Call) : RequestDetail.t Headers :=
  match c with
  | CallRequestWillBeSent request => request
  | CallResponseReceived request => request
  end.

(** The number of [this.send] in the method called. *)
Definition messages (c : Call) : nat :=
  match c with
  | CallRequestWillBeSent _ => 1
  | CallResponseReceived _ => 3
  end.

Definition total (cs : list Call) : nat := list_sum (map messages cs).

(** The requestId expected of each message of a run, in order. *)
Definition requestIds (cs : list Call) : list string :=
  flat_map (fun c => repeat (RequestDetail.id (record c)) (messages c)) cs.

End Run.
Arguments Call : clear implicits.
End Calls.

(** ** The constructor's socket promise and [send] *)

(** [this.socket] is a promise of a one-element array.  The handler of
    ['connection'] registers a reaction that stores the new socket in that
    array and then resolves the promise with a fresh array; [send] awaits
    the promise and writes to the socket it finds in the array.  A handler
    and the reactions it triggers run before the next event is handled. *)
Module Endpoint.
Section Sockets.
Context {Message : Type}.

(** A WebSocket, by the order of its connection. *)
Definition Socket : Type := nat.

(** What waits on the promise: the rest of a [send] after its [await],
    or the callback [(l) => { l[0] = socket }]. *)
Inductive Reaction : Type :=
| Resume (message : Message)
| Assign (socket : Socket).

(** The promise: pending with its reactions, oldest first, or fulfilled
    with the array, given by its element. *)
Inductive Promise : Type :=
| Pending (reactions : list Reaction)
| Fulfilled (l0 : Socket).

(** [sent] lists the calls of [socket.send], oldest first. *)
Record t : Type := {
  socket : Promise;
  sent : list (Socket * Message)
}.

(** The state the constructor leaves. *)
Definition init : t := {| socket := Pending []; sent := [] |}.

(** A reaction run on the array whose element is [l0]. *)
Definition runReaction (acc : Socket * list (Socket * Message)) (r : Reaction)
  : Socket * list (Socket * Message) :=
  let '(l0, out) := acc in
  match r with
  | Resume message => (l0, (out ++ [(l0, message)])%list)
  | Assign s => (s, out)
  end.

(** [this.socket.then(r)], and [await this.socket] for a [Resume]. *)
Definition then_ (r : Reaction) (e : t) : t :=
  match socket e with
  | Pending reactions => {| socket := Pending (reactions ++ [r]); sent := sent e |}
  | Fulfilled l0 =>
      let '(l0', out) := runReaction (l0, sent e) r in
      {| socket := Fulfilled l0'; sent := out |}
  end.

(** [resolve([s])]: a pending promise is fulfilled and its reactions run
    in the order of their registration; a fulfilled one stays as it is. *)
Definition resolve (s : Socket) (e : t) : t :=
  match socket e with
  | Pending reactions =>
      let '(l0, out) := fold_left runReaction reactions (s, sent e) in
      {| socket := Fulfilled l0; sent := out |}
  | Fulfilled _ => e
  end.

(** The handler of ['connection']. *)
Definition connection (s : Socket) (e : t) : t :=
  resolve s (then_ (Assign s) e).

(** [send(message)] *)
Definition send (message : Message) (e : t) : t :=
  then_ (Resume message) e.

Inductive Event : Type :=
| Connection (s : Socket)
| Send (message : Message).

Definition step (e : t) (ev : Event) : t :=
  match ev with
  | Connection s => connection s e
  | Send message => send message e
  end.

Definition steps (evs : list Event) (e : t) : t := fold_left step evs e.

(** The messages of the [send]s among the events, in order. *)
Fixpoint sends (evs : list Event) : list Message :=
  match evs with
  | [] => []
  | Send message :: rest => message :: sends rest
  | Connection _ :: rest => sends rest
  end.

(** The messages of the [send]s that still wait on the promise. *)
Fixpoint resumes (rs : list Reaction) : list Message :=
  match rs with
  | [] => []
  | Resume message :: rest => message :: resumes rest
  | Assign _ :: rest => resumes rest
  end.

Definition waiting (e : t) : list Message :=
  match socket e with
  | Pending reactions => resumes reactions
  | Fulfilled _ => []
  end.

(** The socket each message should reach: the one connected last before
    the [send], or the first to connect when none had. *)
Fixpoint route (current : option Socket) (evs : list Event) : list (option Socket * Message) :=
  match evs with
  | [] => []
  | Connection s :: rest => route (Some s) rest
  | Send message :: rest => (current, message) :: route current rest
  end.

(** The socket a routed message reaches, [first] being the first socket
    to connect. *)
Definition deliver (first : Socket) (p : option Socket * Message) : Socket * Message :=
  (match fst p with Some s => s | None => first end, snd p).

Fixpoint firstConnection (evs : list Event) : option Socket :=
  match evs with
  | [] => None
  | Connection s :: _ => Some s
  | Send _ :: rest => firstConnection rest
  end.

End Sockets.
Arguments t : clear implicits.
Arguments Event : clear implicits.
Arguments Reaction : clear implicits.
Arguments Promise : clear implicits.
End Endpoint.

(** The calls of [open], by kind. *)
Definition isLaunch (e : Browser.Effect) : bool :=
  match e with
  | Browser.Launch _ _ => true
  | _ => false
  end.

Definition isCloseSocket (e : Browser.Effect) : bool :=
  match e with
  | Browser.DebuggerWs _ Browser.Page_close => true
  | _ => false
  end.

Definition isNavigateSocket (e : Browser.Effect) : bool :=
  match e with
  | Browser.DebuggerWs _ (Browser.Page_navigate _) => true
  | _ => false
  end.

(** An effect of [open] that closes a tab. *)
Definition isPageClose (e : Browser.Effect) : Prop :=
  exists socketUrl, e = Browser.DebuggerWs socketUrl Browser.Page_close.

(** ** [DevtoolServer.close] *)

Module Lifecycle.

(** [this.browser]: the process [open] stored, if it got to store one.
    The assignment is the last statement of the [finally] block. *)
Definition browser (h : Browser.Host) (srv : DevtoolServer.t) (fuel : nat)
  : option Browser.Effect :=
  match Browser.open h srv fuel with
  | (effects, Browser.Returned) =>
      find (fun e => match e with Browser.Launch _ _ => true | _ => false end) effects
  | (_, _) => None
  end.

Inductive CloseEffect : Type :=
| ServerClose
| BrowserKill (process : Browser.Effect).

(** [close()]: [this.server.close(); this.browser && this.browser.kill()] *)
Definition close (this_browser : option Browser.Effect) : list CloseEffect :=
  ServerClose ::
  match this_browser with
  | Some process => [BrowserKill process]
  | None => []
  end.

End Lifecycle.

(** ** [index.ts]: [register] *)

Module Register.

(** [interface RegisterOptions] *)
Record RegisterOptions : Type := {
  port : option Z;
  serverPort : option Z
}.

(** [new MainProcess({ port, serverPort })], by its arguments. *)
Record MainProcess : Type := {
  mp_port : Z;
  mp_serverPort : Z
}.

Inductive Agent : Type := http | https.

(** A value of [agent.request]: the platform's own function, or what
    [requestProxyFactory] returned for its three arguments. *)
Inductive RequestFn : Type :=
| actual (agent : Agent)
| requestProxy (actualRequestHandlerFn : RequestFn) (isHttps : bool)
    (mainProcess : MainProcess).

(** The module state [register] writes: the two [request] properties and
    the calls of [proxyFetch], oldest first. *)
Record Modules : Type := {
  http_request : RequestFn;
  https_request : RequestFn;
  proxyFetch : list MainProcess
}.

Definition pristine : Modules :=
  {| http_request := actual http; https_request := actual https; proxyFetch := [] |}.

(** A destructuring default: it replaces [undefined] only. *)
Definition default (v : option Z) (d : Z) : Z :=
  match v with
  | Some x => x
  | None => d
  end.

(** [register(props)] *)
Definition register (props : option RegisterOptions) (m : Modules) : Modules :=
  let props' := match props with
                | Some p => p
                | None => {| port := None; serverPort := None |}
                end in
  let mainProcess :=
    {| mp_port := default (port props') 5270; mp_serverPort := default (serverPort props') 5271 |} in
  {| http_request := requestProxy (http_request m) false mainProcess;
     https_request := requestProxy (https_request m) true mainProcess;
     proxyFetch := (proxyFetch m ++ [mainProcess])%list |}.

(** The layers of proxy around a request function, outermost first. *)
Fixpoint layers (f : RequestFn) : list (bool * MainProcess) :=
  match f with
  | actual _ => []
  | requestProxy inner isHttps mainProcess => (isHttps, mainProcess) :: layers inner
  end.

(** The platform function a request function ends up calling. *)
Fixpoint innermost (f : RequestFn) : Agent :=
  match f with
  | actual a => a
  | requestProxy inner _ _ => innermost inner
  end.

(** [register] called once per element of [calls], in order. *)
Definition registers (calls : list (option RegisterOptions)) (m : Modules) : Modules :=
  fold_left (fun acc props => register props acc) calls m.

(** The main process a call creates. *)
Definition mainProcessOf (props : option RegisterOptions) : MainProcess :=
  {| mp_port := default (match props with Some p => port p | None => None end) 5270;
     mp_serverPort := default (match props with Some p => serverPort p | None => None end) 5271 |}.

End Register.

(** ** The lengths a message reports *)

Module MsgLength.
Section Fields.
Context {Headers : Type}.

(** [params.encodedDataLength], or [params.response.encodedDataLength]
    for [Network.responseReceived]; [None] also when the message has no
    such property. *)
Definition encodedDataLength (m : CDPMessage Headers) : option Z :=
  match m with
  | Network_requestWillBeSent _ _ _ _ _ _ _ _ => None
  | Network_responseReceived _ _ _ _ _ response => CDPResponse.encodedDataLength response
  | Network_dataReceived _ _ _ e => e
  | Network_loadingFinished _ _ e => e
  end.

(** [params.dataLength] *)
Definition dataLength (m : CDPMessage Headers) : option Z :=
  match m with
  | Network_dataReceived _ _ d _ => d
  | _ => None
  end.

End Fields.
End MsgLength.

(** ** More records, hosts and events to run the code on *)

Module Scenario.

Definition inspector : string :=
  "devtools://devtools/bundled/inspector.html?ws=localhost:5270".

Definition tab (n url : string) : DebuggerJSON.t :=
  {| DebuggerJSON.webSocketDebuggerUrl := "ws://127.0.0.1:9333/devtools/page/" ++ n;
     DebuggerJSON.url := url;
     DebuggerJSON.id := n |}.

(** The remote debugger already runs and lists two inspector tabs. *)
Definition staleHost : Browser.Host :=
  {| Browser.NETWORK_DEBUG_MODE := None;
     Browser.platform := "linux";
     Browser.REMOTE_DEBUGGER_PORT := 9333;
     Browser.remoteJSON := fun _ =>
       Some [tab "1" "about:blank"; tab "2" inspector; tab "3" inspector] |}.

Definition darwinHost : Browser.Host :=
  {| Browser.NETWORK_DEBUG_MODE := None;
     Browser.platform := "darwin";
     Browser.REMOTE_DEBUGGER_PORT := 9333;
     Browser.remoteJSON := fun _ => None |}.

(** The remote debugger comes up with no tab listed. *)
Definition emptyHost : Browser.Host :=
  {| Browser.NETWORK_DEBUG_MODE := None;
     Browser.platform := "win32";
     Browser.REMOTE_DEBUGGER_PORT := 9333;
     Browser.remoteJSON := fun k => if (k <? 2)%nat then None else Some [] |}.

Definition first : RequestDetail.t HeaderPipe.Headers :=
  Fixture.exchange (Some (JStr "{}")) 200 [("content-type", "text/html")].

Definition second : RequestDetail.t HeaderPipe.Headers :=
  RequestDetail.constructor "p0w7aa" [].

(** Two exchanges in flight at once. *)
Definition calls : list (Calls.Call HeaderPipe.Headers) :=
  [Calls.CallRequestWillBeSent first; Calls.CallRequestWillBeSent second;
   Calls.CallResponseReceived first; Calls.CallResponseReceived second].

(** A front-end connects late and is replaced by another one. *)
Definition events : list (Endpoint.Event string) :=
  [Endpoint.Send "a"; Endpoint.Send "b"; Endpoint.Connection 0%nat; Endpoint.Send "c";
   Endpoint.Connection 1%nat; Endpoint.Send "d"].

End Scenario.

(** * Part II: the properties *)

(** ** Strings *)

Module JSStringFacts.
Import JSString.

Lemma startsWith_app p s : startsWith p (p ++ s) = true.
Proof.
  induction p as [|a p IH]; simpl; [reflexivity|].
  now rewrite Ascii.eqb_refl.
Qed.

Lemma startsWith_spec p s :
  startsWith p s = true <-> exists t, s = p ++ t.
Proof.
  split.
  - revert s; induction p as [|a p IH]; intros s H.
    + exists s; reflexivity.
    + destruct s as [|b s]; simpl in H; [discriminate|].
      destruct (Ascii.eqb_spec a b) as [->|]; [|discriminate].
      destruct (IH _ H) as [t ->]. now exists t.
  - intros [t ->]. apply startsWith_app.
Qed.

Lemma includes_unfold p s :
  includes p s =
  if startsWith p s then true
  else match s with EmptyString => false | String _ s' => includes p s' end.
Proof. destruct s; reflexivity. Qed.

Lemma includes_app p l r : includes p (l ++ p ++ r) = true.
Proof.
  induction l as [|a l IH]; simpl append; rewrite includes_unfold.
  - now rewrite startsWith_app.
  - rewrite IH. now destruct (startsWith p _).
Qed.

(** [includes] decides occurrence. *)
Lemma includes_spec p s : includes p s = true <-> occurs p s.
Proof.
  split.
  - induction s as [|a s IH]; rewrite includes_unfold; intros H.
    + destruct (startsWith p "") eqn:E; [|discriminate].
      apply startsWith_spec in E as [t ->]. now exists "", t.
    + destruct (startsWith p (String a s)) eqn:E.
      * apply startsWith_spec in E as [t ->]. now exists "", t.
      * destruct (IH H) as (l & r & ->). now exists (String a l), r.
  - intros (l & r & ->). apply includes_app.
Qed.

Lemma includes_false p s : includes p s = false <-> ~ occurs p s.
Proof.
  rewrite <- includes_spec. destruct (includes p s); split; congruence.
Qed.

Lemma includes_char_cons c a s :
  includes (String c "") (String a s) = Ascii.eqb c a || includes (String c "") s.
Proof.
  rewrite includes_unfold. simpl startsWith. now destruct (Ascii.eqb c a).
Qed.

(** [split0] keeps what stands before the first separator. *)
Lemma split0_app c l r :
  ~ occurs (String c "") l -> split0 c (l ++ String c r) = l.
Proof.
  rewrite <- includes_false.
  induction l as [|a l IH]; intros H; simpl.
  - now rewrite Ascii.eqb_refl.
  - rewrite includes_char_cons, Ascii.eqb_sym in H.
    destruct (Ascii.eqb a c); [discriminate|].
    now rewrite IH.
Qed.

(** Without a separator [split0] keeps everything. *)
Lemma split0_id c s : ~ occurs (String c "") s -> split0 c s = s.
Proof.
  rewrite <- includes_false.
  induction s as [|a s IH]; intros H; [reflexivity|].
  rewrite includes_char_cons, Ascii.eqb_sym in H. simpl.
  destruct (Ascii.eqb a c); [discriminate|].
  now rewrite IH.
Qed.

Lemma split0_no_sep c s : ~ occurs (String c "") (split0 c s).
Proof.
  rewrite <- includes_false.
  induction s as [|a s IH]; [reflexivity|].
  simpl split0. destruct (Ascii.eqb_spec a c) as [->|Hne]; [reflexivity|].
  rewrite includes_char_cons, IH.
  destruct (Ascii.eqb_spec c a) as [->|_]; [now elim Hne|reflexivity].
Qed.

Lemma truthy_false s : truthy s = false <-> s = "".
Proof. destruct s; simpl; split; congruence. Qed.

(** The specification's mimeType is the text before the first semicolon. *)
Lemma mimeType_before_semicolon l r :
  ~ occurs ";" l -> Spec.mimeType (l ++ ";" ++ r) = l.
Proof. apply split0_app. Qed.

Lemma mimeType_without_semicolon s : ~ occurs ";" s -> Spec.mimeType s = s.
Proof. apply split0_id. Qed.

End JSStringFacts.

(** ** The projection: what each method writes *)

Section Projection.
Import DevtoolServer.
Context {Headers : Type} `{RequestHeaderPipe Headers}.

Implicit Types (request : RequestDetail.t Headers) (st : State Headers)
  (srv : t) (w : World Headers).

Lemma updateTimestamp_run srv w :
  updateTimestamp (srv, w) =
  (tt, ({| port := port srv; timestamp := stamp (srv, w) 0; startTime := startTime srv |},
        {| clock := clock w; reads := S (reads w); wire := wire w |})).
Proof. reflexivity. Qed.

Lemma requestWillBeSent_run request srv w :
  requestWillBeSent request (srv, w) =
  (tt, ({| port := port srv; timestamp := stamp (srv, w) 0; startTime := startTime srv |},
        {| clock := clock w; reads := S (reads w);
           wire := wire w ++
             [requestWillBeSent_message request
                (getHeader (RequestDetail.requestHeaders request) "content-type")
                (stamp (srv, w) 0)] |}))%list.
Proof. reflexivity. Qed.

Lemma responseReceived_run request srv w :
  responseReceived request (srv, w) =
  (tt, ({| port := port srv; timestamp := stamp (srv, w) 2; startTime := startTime srv |},
        {| clock := clock w; reads := S (S (S (reads w)));
           wire := wire w ++
             [responseReceived_message request (responseContentType request)
                (resourceType (responseContentType request)) (stamp (srv, w) 0);
              dataReceived_message request (stamp (srv, w) 1);
              loadingFinished_message request (stamp (srv, w) 2)] |}))%list.
Proof.
  unfold responseReceived, bind.
  rewrite updateTimestamp_run. cbn [this_timestamp send timestamp].
  rewrite updateTimestamp_run. cbn [this_timestamp send timestamp].
  rewrite updateTimestamp_run. cbn [this_timestamp send timestamp].
  unfold stamp. cbn [fst snd clock reads startTime wire Nat.add].
  now rewrite <- !app_assoc.
Qed.

(** The server's start is the reading of the clock at its construction. *)
Lemma constructor_startTime port' w :
  startTime (fst (constructor port' w)) = clock w (reads w)
  /\ wire (snd (constructor port' w)) = wire w.
Proof. now split. Qed.

Lemma requestWillBeSent_emits request st :
  emits (requestWillBeSent request) st
    [requestWillBeSent_message request
       (getHeader (RequestDetail.requestHeaders request) "content-type") (stamp st 0)].
Proof. destruct st as [srv w]. unfold emits, exec. now rewrite requestWillBeSent_run. Qed.

Lemma responseReceived_emits request st :
  emits (responseReceived request) st
    [responseReceived_message request (responseContentType request)
       (resourceType (responseContentType request)) (stamp st 0);
     dataReceived_message request (stamp st 1);
     loadingFinished_message request (stamp st 2)].
Proof. destruct st as [srv w]. unfold emits, exec. now rewrite responseReceived_run. Qed.

Lemma project_emits request st :
  emits (project request) st
    [requestWillBeSent_message request
       (getHeader (RequestDetail.requestHeaders request) "content-type") (stamp st 0);
     responseReceived_message request (responseContentType request)
       (resourceType (responseContentType request)) (stamp st 1);
     dataReceived_message request (stamp st 2);
     loadingFinished_message request (stamp st 3)].
Proof.
  destruct st as [srv w]. unfold emits, exec, project, bind.
  rewrite requestWillBeSent_run, responseReceived_run.
  unfold stamp. cbn [fst snd clock reads startTime wire Nat.add].
  now rewrite <- app_assoc.
Qed.


(** C1: projecting a completed record hands four messages to the socket,
    in the order requestWillBeSent, responseReceived, dataReceived,
    loadingFinished, and each of them carries the record's id as its
    requestId. *)
Theorem project_order_and_requestId request st :
  exists m1 m2 m3 m4,
    emits (project request) st [m1; m2; m3; m4]
    /\ map Msg.method [m1; m2; m3; m4] =
       ["Network.requestWillBeSent"; "Network.responseReceived";
        "Network.dataReceived"; "Network.loadingFinished"]
    /\ Forall (fun m => Msg.requestId m = RequestDetail.id request) [m1; m2; m3; m4].
Proof.
  do 4 eexists. split; [apply project_emits|].
  split; [reflexivity|]. repeat constructor.
Qed.

(** C3: in the responseReceived message, statusText is OK exactly when
    the response status code is 200 and is the empty string otherwise; a
    500 response has the empty statusText. *)
Theorem responseReceived_statusText request st :
  exists m d l response,
    emits (responseReceived request) st [m; d; l]
    /\ Msg.method m = "Network.responseReceived"
    /\ Msg.response m = Some response
    /\ (CDPResponse.statusText response = "OK"
        <-> RequestDetail.responseStatusCode request = Some 200%Z)
    /\ (RequestDetail.responseStatusCode request <> Some 200%Z
        -> CDPResponse.statusText response = "")
    /\ (RequestDetail.responseStatusCode request = Some 500%Z
        -> CDPResponse.statusText response = "").
Proof.
  do 4 eexists. split; [apply responseReceived_emits|].
  split; [reflexivity|]. split; [reflexivity|].
  cbn [CDPResponse.statusText].
  destruct (RequestDetail.responseStatusCode request) as [code|].
  - destruct (Z.eqb_spec code 200) as [->|Hne].
    + repeat split; congruence.
    + repeat split; congruence.
  - repeat split; congruence.
Qed.

(** C8: the frameId and loaderId of requestWillBeSent and of
    responseReceived are the constants 517.528 and 517.529, whatever the
    record and the state of the server. *)
Theorem frameId_loaderId_constant request st :
  (exists m,
     emits (requestWillBeSent request) st [m]
     /\ Msg.frameId m = Some frameId /\ Msg.loaderId m = Some loaderId)
  /\ (exists m d l,
        emits (responseReceived request) st [m; d; l]
        /\ Msg.frameId m = Some frameId /\ Msg.loaderId m = Some loaderId)
  /\ frameId = "517.528" /\ loaderId = "517.529".
Proof.
  split; [|split].
  - eexists. split; [apply requestWillBeSent_emits|]. now split.
  - do 3 eexists. split; [apply responseReceived_emits|]. now split.
  - now split.
Qed.

Lemma stamp_le st i j :
  monotone (clock (snd st)) -> (i <= j)%nat -> (stamp st i <= stamp st j)%Q.
Proof.
  intros Hm Hij. unfold stamp, Qle. cbn [Qnum Qden].
  assert (clock (snd st) (i + reads (snd st)) <= clock (snd st) (j + reads (snd st)))%Z
    by (apply Hm; lia).
  lia.
Qed.

(** Both methods let the server run on. *)
Lemma requestWillBeSent_later request st : later st (exec (requestWillBeSent request) st).
Proof.
  destruct st as [srv w]. unfold exec. rewrite requestWillBeSent_run.
  repeat split. cbn. lia.
Qed.

Lemma responseReceived_later request st : later st (exec (responseReceived request) st).
Proof.
  destruct st as [srv w]. unfold exec. rewrite responseReceived_run.
  repeat split. cbn. lia.
Qed.

(** C7: each message's timestamp comes from a reading of the wall clock
    of its own, as the seconds between the start of the server, which is
    the reading its constructor took, and that reading; when the clock
    does not run backwards, the timestamps of a record's messages are not
    negative and do not decrease, whatever the server did since its
    construction and between the record's requestWillBeSent and its
    responseReceived. *)
Theorem record_timestamps_since_start port' (w : World Headers) request st st' :
  monotone (clock w) ->
  later (constructor port' w) st ->
  later (exec (requestWillBeSent request) st) st' ->
  exists m1 m2 m3 m4,
    emits (requestWillBeSent request) st [m1]
    /\ emits (responseReceived request) st' [m2; m3; m4]
    /\ startTime (fst (constructor port' w)) = clock w (reads w)
    /\ Msg.timestamp m1 = sinceStart w (reads (snd st))
    /\ map Msg.timestamp [m2; m3; m4]
       = [sinceStart w (reads (snd st')); sinceStart w (1 + reads (snd st'));
          sinceStart w (2 + reads (snd st'))]
    /\ (0 <= Msg.timestamp m1)%Q
    /\ (Msg.timestamp m1 <= Msg.timestamp m2)%Q
    /\ (Msg.timestamp m2 <= Msg.timestamp m3)%Q
    /\ (Msg.timestamp m3 <= Msg.timestamp m4)%Q.
Proof.
  intros Hm (Hc0 & Hs0 & Hr0) (Hc & Hs & Hr).
  cbn [constructor Date_now fst snd clock reads startTime] in Hc0, Hs0, Hr0.
  destruct st as [srv w1]. unfold exec in Hc, Hs, Hr.
  rewrite requestWillBeSent_run in Hc, Hs, Hr.
  cbn [fst snd clock reads startTime] in Hc0, Hs0, Hr0, Hc, Hs, Hr.
  rewrite Hc0 in Hc. rewrite Hs0 in Hs.
  do 4 eexists.
  split; [apply requestWillBeSent_emits|].
  split; [apply responseReceived_emits|].
  split; [reflexivity|].
  cbn [Msg.timestamp map requestWillBeSent_message responseReceived_message
       dataReceived_message loadingFinished_message].
  unfold stamp, sinceStart. cbn [fst snd Nat.add]. rewrite Hc0, Hs0, Hc, Hs.
  split; [reflexivity|]. split; [reflexivity|].
  unfold Qle. cbn [Qnum Qden].
  assert (clock w (reads w) <= clock w (reads w1))%Z by (apply Hm; lia).
  assert (clock w (reads w1) <= clock w (reads (snd st')))%Z by (apply Hm; lia).
  assert (clock w (reads (snd st')) <= clock w (S (reads (snd st'))))%Z by (apply Hm; lia).
  assert (clock w (S (reads (snd st'))) <= clock w (S (S (reads (snd st')))))%Z
    by (apply Hm; lia).
  repeat split; lia.
Qed.

(** An empty content-type is replaced by the default, which is classified
    as the empty one is. *)
Lemma resourceType_header request c :
  getHeader (RequestDetail.responseHeaders request) "content-type" = Some c ->
  resourceType (responseContentType request) = resourceType c.
Proof.
  intros Hc. unfold responseContentType. rewrite Hc.
  now destruct c.
Qed.

Lemma resourceType_cases c :
  (JSString.occurs "image" c -> resourceType c = "Image")
  /\ (~ JSString.occurs "image" c -> JSString.occurs "javascript" c ->
      resourceType c = "Script")
  /\ (~ JSString.occurs "image" c -> ~ JSString.occurs "javascript" c ->
      JSString.occurs "css" c -> resourceType c = "Stylesheet")
  /\ (~ JSString.occurs "image" c -> ~ JSString.occurs "javascript" c ->
      ~ JSString.occurs "css" c -> JSString.occurs "html" c ->
      resourceType c = "Document")
  /\ (~ JSString.occurs "image" c -> ~ JSString.occurs "javascript" c ->
      ~ JSString.occurs "css" c -> ~ JSString.occurs "html" c ->
      resourceType c = "Other").
Proof.
  unfold resourceType.
  repeat split; intros;
    repeat match goal with
           | O : JSString.occurs _ _ |- _ =>
               apply JSStringFacts.includes_spec in O; rewrite O; clear O
           | O : ~ JSString.occurs _ _ |- _ =>
               apply JSStringFacts.includes_false in O; rewrite O; clear O
           end;
    reflexivity.
Qed.

(** The usual image types are covered by the keyword. *)
Lemma resourceType_image_prefix rest : resourceType ("image/" ++ rest) = "Image".
Proof. apply resourceType_cases. now exists "", ("/" ++ rest). Qed.

(** C2, amended: the type of the responseReceived message is decided by
    the first of the keywords image, javascript, css, html that occurs
    anywhere in the response content-type: Image, Script, Stylesheet,
    Document in that order, and Other when none of them occurs. *)
Theorem responseReceived_type_by_keyword request st c :
  getHeader (RequestDetail.responseHeaders request) "content-type" = Some c ->
  exists m d l ty,
    emits (responseReceived request) st [m; d; l]
    /\ Msg.method m = "Network.responseReceived"
    /\ Msg.type m = Some ty
    /\ (JSString.occurs "image" c -> ty = "Image")
    /\ (~ JSString.occurs "image" c -> JSString.occurs "javascript" c -> ty = "Script")
    /\ (~ JSString.occurs "image" c -> ~ JSString.occurs "javascript" c ->
        JSString.occurs "css" c -> ty = "Stylesheet")
    /\ (~ JSString.occurs "image" c -> ~ JSString.occurs "javascript" c ->
        ~ JSString.occurs "css" c -> JSString.occurs "html" c -> ty = "Document")
    /\ (~ JSString.occurs "image" c -> ~ JSString.occurs "javascript" c ->
        ~ JSString.occurs "css" c -> ~ JSString.occurs "html" c -> ty = "Other").
Proof.
  intros Hc. do 4 eexists. split; [apply responseReceived_emits|].
  split; [reflexivity|]. split; [reflexivity|].
  rewrite (resourceType_header _ _ Hc). apply resourceType_cases.
Qed.

(** C4, amended: the mimeType of the responseReceived message is the
    content-type up to its first semicolon when that part is not empty,
    and text/plain when it is empty. *)
Theorem responseReceived_mimeType request st c :
  getHeader (RequestDetail.responseHeaders request) "content-type" = Some c ->
  exists m d l response,
    emits (responseReceived request) st [m; d; l]
    /\ Msg.response m = Some response
    /\ (Spec.mimeType c <> "" -> CDPResponse.mimeType response = Spec.mimeType c)
    /\ (Spec.mimeType c = "" -> CDPResponse.mimeType response = "text/plain").
Proof.
  intros Hc. do 4 eexists. split; [apply responseReceived_emits|].
  split; [reflexivity|].
  cbn [responseReceived_message CDPResponse.mimeType].
  unfold responseContentType, Spec.mimeType. rewrite Hc.
  destruct c as [|a c]; [split; [intros E; now elim E|reflexivity]|].
  cbn [JSString.orElse JSString.truthy]. unfold toMimeType, JSString.orElse.
  destruct (JSString.split0 ";" (String a c)); split; cbn; congruence.
Qed.

(** C10: when the response has no content-type header, the
    responseReceived message has the type Other and the mimeType
    text/plain, those of the default text/plain; charset=utf-8. *)
Theorem responseReceived_default_contentType request st :
  getHeader (RequestDetail.responseHeaders request) "content-type" = None ->
  responseContentType request = "text/plain; charset=utf-8"
  /\ exists m d l response,
       emits (responseReceived request) st [m; d; l]
       /\ Msg.method m = "Network.responseReceived"
       /\ Msg.type m = Some "Other"
       /\ Msg.response m = Some response
       /\ CDPResponse.mimeType response = "text/plain".
Proof.
  intros Hc.
  assert (E : responseContentType request = "text/plain; charset=utf-8")
    by (unfold responseContentType; now rewrite Hc).
  split; [exact E|].
  do 4 eexists. split; [apply responseReceived_emits|].
  rewrite E. repeat split.
Qed.

Lemma includes_json_spec request :
  includes_json (getHeader (RequestDetail.requestHeaders request) "content-type") = true
  <-> jsonLike request.
Proof.
  unfold includes_json, jsonLike.
  destruct (getHeader _ _) as [c|].
  - rewrite JSStringFacts.includes_spec. split.
    + intros Ho. now exists c.
    + now intros (c' & [= <-] & Ho).
  - split; [discriminate|]. now intros (c' & [=] & _).
Qed.

(** C5, amended: the requestWillBeSent message has a postData exactly
    when the request body is truthy, that is neither undefined nor null,
    false, 0 or the empty string; it is then the JSON serialisation of the
    body when the request content-type contains application/json, and the
    body itself otherwise. *)
Theorem requestWillBeSent_postData request st :
  exists m rq,
    emits (requestWillBeSent request) st [m]
    /\ Msg.method m = "Network.requestWillBeSent"
    /\ Msg.request m = Some rq
    /\ (CDPRequest.postData rq <> None
        <-> JSON.truthy_opt (RequestDetail.requestData request) = true)
    /\ (forall body,
          RequestDetail.requestData request = Some body -> JSON.truthy body = true ->
          (jsonLike request -> CDPRequest.postData rq = Some (JStr (JSON_stringify body)))
          /\ (~ jsonLike request -> CDPRequest.postData rq = Some body)).
Proof.
  do 2 eexists. split; [apply requestWillBeSent_emits|].
  split; [reflexivity|]. split; [reflexivity|].
  cbn [requestWillBeSent_message CDPRequest.postData].
  pose proof (includes_json_spec request) as J.
  destruct (RequestDetail.requestData request) as [body|]; cbn [JSON.truthy_opt].
  - split.
    + destruct (JSON.truthy body); split; congruence.
    + intros ? [= <-] ->.
      destruct (includes_json _); split; intros L; try reflexivity.
      * now elim L; apply J.
      * apply J in L. discriminate.
  - split; [split; congruence|]. discriminate.
Qed.

End Projection.

(** ** The methods on concrete records *)

Lemma fixture_clock_monotone : monotone (DevtoolServer.clock (snd Fixture.state)).
Proof.
  intros i j Hij.
  change (1700000000000 + 7 * Z.of_nat i <= 1700000000000 + 7 * Z.of_nat j)%Z.
  lia.
Qed.

Lemma record_timestamps_since_start_witness :
  let request := Fixture.exchange (Some (JObj [("k", JNum 1)])) 200
                   [("content-type", "text/plain")] in
  let w := Fixture.world in
  let st := DevtoolServer.constructor 5270 w in
  let st' := DevtoolServer.exec (DevtoolServer.requestWillBeSent request) st in
  monotone (DevtoolServer.clock w)
  /\ later (DevtoolServer.constructor 5270 w) st
  /\ later (DevtoolServer.exec (DevtoolServer.requestWillBeSent request) st) st'
  /\ exists m1 m2 m3 m4,
       DevtoolServer.emits (DevtoolServer.requestWillBeSent request) st [m1]
       /\ DevtoolServer.emits (DevtoolServer.responseReceived request) st' [m2; m3; m4]
       /\ DevtoolServer.startTime (fst (DevtoolServer.constructor 5270 w))
          = DevtoolServer.clock w (DevtoolServer.reads w)
       /\ Msg.timestamp m1 = sinceStart w (DevtoolServer.reads (snd st))
       /\ map Msg.timestamp [m2; m3; m4]
          = [sinceStart w (DevtoolServer.reads (snd st'));
             sinceStart w (1 + DevtoolServer.reads (snd st'));
             sinceStart w (2 + DevtoolServer.reads (snd st'))]
       /\ (0 <= Msg.timestamp m1)%Q
       /\ (Msg.timestamp m1 <= Msg.timestamp m2)%Q
       /\ (Msg.timestamp m2 <= Msg.timestamp m3)%Q
       /\ (Msg.timestamp m3 <= Msg.timestamp m4)%Q.
Proof.
  intros request w st st'.
  assert (L0 : later (DevtoolServer.constructor 5270 w) st)
    by (repeat split; apply le_n).
  assert (L : later (DevtoolServer.exec (DevtoolServer.requestWillBeSent request) st) st')
    by (repeat split; apply le_n).
  split; [exact fixture_clock_monotone|]. split; [exact L0|]. split; [exact L|].
  apply (record_timestamps_since_start 5270 w request st st' fixture_clock_monotone L0 L).
Defined.

(** The timestamps of the fixture's messages, in thousandths. *)
Example project_timestamps_run :
  map Msg.timestamp
    (DevtoolServer.wire
       (snd (DevtoolServer.exec
               (DevtoolServer.project
                  (Fixture.exchange None 200 [("content-type", "text/plain")]))
               Fixture.state)))
  = [7 # 1000; 14 # 1000; 21 # 1000; 28 # 1000].
Proof. vm_compute. reflexivity. Qed.

Lemma responseReceived_type_by_keyword_witness :
  let request := Fixture.exchange None 200 [("Content-Type", "text/html; charset=utf-8")] in
  let c := "text/html; charset=utf-8" in
  getHeader (RequestDetail.responseHeaders request) "content-type" = Some c
  /\ exists m d l ty,
       DevtoolServer.emits (DevtoolServer.responseReceived request) Fixture.state [m; d; l]
       /\ Msg.method m = "Network.responseReceived"
       /\ Msg.type m = Some ty
       /\ (JSString.occurs "image" c -> ty = "Image")
       /\ (~ JSString.occurs "image" c -> JSString.occurs "javascript" c -> ty = "Script")
       /\ (~ JSString.occurs "image" c -> ~ JSString.occurs "javascript" c ->
           JSString.occurs "css" c -> ty = "Stylesheet")
       /\ (~ JSString.occurs "image" c -> ~ JSString.occurs "javascript" c ->
           ~ JSString.occurs "css" c -> JSString.occurs "html" c -> ty = "Document")
       /\ (~ JSString.occurs "image" c -> ~ JSString.occurs "javascript" c ->
           ~ JSString.occurs "css" c -> ~ JSString.occurs "html" c -> ty = "Other").
Proof.
  intros request c.
  split; [reflexivity|].
  apply (responseReceived_type_by_keyword request Fixture.state c). reflexivity.
Defined.

(** The content-type application/xhtml+xml is none of image/*,
    */javascript, */css and text/html, and its message has the type
    Document. *)
Lemma resourceType_xhtml_counterexample :
  map Msg.type
    (DevtoolServer.wire
       (snd (DevtoolServer.exec
               (DevtoolServer.responseReceived
                  (Fixture.exchange None 200 [("content-type", "application/xhtml+xml")]))
               Fixture.state)))
  = [Some "Document"; None; None]
  /\ Spec.resourceType "application/xhtml+xml" = "Other".
Proof. split; vm_compute; reflexivity. Qed.

Lemma responseReceived_mimeType_witness :
  let request := Fixture.exchange None 200 [("Content-Type", "text/html; charset=utf-8")] in
  let c := "text/html; charset=utf-8" in
  getHeader (RequestDetail.responseHeaders request) "content-type" = Some c
  /\ exists m d l response,
       DevtoolServer.emits (DevtoolServer.responseReceived request) Fixture.state [m; d; l]
       /\ Msg.response m = Some response
       /\ (Spec.mimeType c <> "" -> CDPResponse.mimeType response = Spec.mimeType c)
       /\ (Spec.mimeType c = "" -> CDPResponse.mimeType response = "text/plain").
Proof.
  intros request c. split; [reflexivity|].
  apply (responseReceived_mimeType request Fixture.state c). reflexivity.
Defined.

(** The content-type ;charset=utf-8 has nothing before its first
    semicolon, and its message has the mimeType text/plain. *)
Lemma mimeType_empty_counterexample :
  map (fun m => option_map CDPResponse.mimeType (Msg.response m))
    (DevtoolServer.wire
       (snd (DevtoolServer.exec
               (DevtoolServer.responseReceived
                  (Fixture.exchange None 200 [("content-type", ";charset=utf-8")]))
               Fixture.state)))
  = [Some "text/plain"; None; None]
  /\ Spec.mimeType ";charset=utf-8" = ""
  /\ toMimeType ";charset=utf-8" <> Spec.mimeType ";charset=utf-8".
Proof. split; [|split]; vm_compute; [reflexivity|reflexivity|discriminate]. Qed.

(** A request whose body is the empty string, or the JSON value 0, has
    a body, and its message has no postData. *)
Lemma postData_falsy_body_counterexample :
  forallb (fun body => Spec.bodyExists (Fixture.exchange (Some body) 200 []))
    [JStr ""; JNum 0] = true
  /\ map (fun body =>
            map (fun m => option_map CDPRequest.postData (Msg.request m))
              (DevtoolServer.wire
                 (snd (DevtoolServer.exec
                         (DevtoolServer.requestWillBeSent
                            (Fixture.exchange (Some body) 200 []))
                         Fixture.state))))
       [JStr ""; JNum 0]
     = [[Some None]; [Some None]].
Proof. split; vm_compute; reflexivity. Qed.

Lemma responseReceived_default_contentType_witness :
  let request := Fixture.exchange None 200 [("Content-Length", "5")] in
  getHeader (RequestDetail.responseHeaders request) "content-type" = None
  /\ DevtoolServer.responseContentType request = "text/plain; charset=utf-8"
  /\ exists m d l response,
       DevtoolServer.emits (DevtoolServer.responseReceived request) Fixture.state [m; d; l]
       /\ Msg.method m = "Network.responseReceived"
       /\ Msg.type m = Some "Other"
       /\ Msg.response m = Some response
       /\ CDPResponse.mimeType response = "text/plain".
Proof.
  intros request. split; [reflexivity|].
  apply (responseReceived_default_contentType request Fixture.state). reflexivity.
Defined.

(** Scenario 2 of the specification: the JSON body [{k: 1}] is sent as
    its serialisation. *)
Example postData_json_body :
  map (fun m => option_map CDPRequest.postData (Msg.request m))
    (DevtoolServer.wire
       (snd (DevtoolServer.exec
               (DevtoolServer.requestWillBeSent
                  (Fixture.exchange (Some (JObj [("k", JNum 1)])) 200 []))
               Fixture.state)))
  = [Some (Some (JStr ("{" ++ Fixture.dq ++ "k" ++ Fixture.dq ++ ":1}")))].
Proof. vm_compute. reflexivity. Qed.

(** Scenarios 1 and 4: a text/plain response is Other with the mimeType
    text/plain; statusText is OK for 200 and empty for 500. *)
Example responseReceived_text_plain :
  map (fun m => (Msg.method m, Msg.type m,
                 option_map (fun r => (CDPResponse.mimeType r, CDPResponse.statusText r))
                            (Msg.response m)))
    (DevtoolServer.wire
       (snd (DevtoolServer.exec
               (DevtoolServer.responseReceived
                  (Fixture.exchange None 500 [("content-type", "text/plain")]))
               Fixture.state)))
  = [("Network.responseReceived", Some "Other", Some ("text/plain", ""));
     ("Network.dataReceived", None, None);
     ("Network.loadingFinished", None, None)].
Proof. vm_compute. reflexivity. Qed.

Example resourceType_usual :
  map DevtoolServer.resourceType
    ["image/png"; "application/javascript"; "text/css"; "text/html; charset=utf-8";
     "application/json"]
  = ["Image"; "Script"; "Stylesheet"; "Document"; "Other"].
Proof. reflexivity. Qed.

Example JSON_stringify_escapes :
  JSON_stringify (JArr [JStr ("a" ++ JSON.chr 34 ++ JSON.chr 10 ++ "b"); JNull; JBool true;
                        JNum (-12)])
  = "[" ++ Fixture.dq ++ "a" ++ JSON.chr 92 ++ Fixture.dq ++ JSON.chr 92 ++ "nb"
    ++ Fixture.dq ++ ",null,true,-12]".
Proof. reflexivity. Qed.

(** ** The record's call frames *)

(** C9: each call frame of a constructed record comes from the stack
    frame at its position: a file name that begins with a slash gives the
    url file:// followed by the file name, an empty or missing file name
    gives the empty url, and a missing functionName, lineNumber or
    columnNumber gives the empty string or 0. *)
Theorem constructor_callFrames (Headers : Type) random_id frames k frame :
  nth_error frames k = Some frame ->
  exists init cf,
    RequestDetail.initiator (@RequestDetail.constructor Headers random_id frames) = Some init
    /\ nth_error (Initiator.callFrames init) k = Some cf
    /\ (forall path, fileName frame = Some (String "/" path) ->
        CDPCallFrame.url cf = "file://" ++ String "/" path)
    /\ (fileName frame = Some "" \/ fileName frame = None -> CDPCallFrame.url cf = "")
    /\ (functionName frame = None -> CDPCallFrame.functionName cf = "")
    /\ (lineNumber frame = None -> CDPCallFrame.lineNumber cf = 0%Z)
    /\ (columnNumber frame = None -> CDPCallFrame.columnNumber cf = 0%Z).
Proof.
  intros Hk.
  exists {| Initiator.type := "script";
            Initiator.callFrames := map RequestDetail.callFrame frames |},
         (RequestDetail.callFrame frame).
  split.
  - cbn [RequestDetail.constructor RequestDetail.initiator].
    rewrite length_map. destruct frames; [now destruct k|reflexivity].
  - split; [now apply map_nth_error|].
    unfold RequestDetail.callFrame.
    cbn [CDPCallFrame.url CDPCallFrame.functionName CDPCallFrame.lineNumber
         CDPCallFrame.columnNumber].
    split; [|split; [|split; [|split]]].
    + intros path ->. reflexivity.
    + intros [-> | ->]; reflexivity.
    + intros ->. reflexivity.
    + intros ->. reflexivity.
    + intros ->. reflexivity.
Qed.

Lemma constructor_callFrames_witness :
  let frame := {| fileName := Some "/srv/app/index.js"; functionName := None;
                  lineNumber := Some 12%Z; columnNumber := None |} in
  nth_error [frame] 0 = Some frame
  /\ exists init cf,
       RequestDetail.initiator (@RequestDetail.constructor HeaderPipe.Headers "k3x9q2" [frame])
       = Some init
       /\ nth_error (Initiator.callFrames init) 0 = Some cf
       /\ (forall path, fileName frame = Some (String "/" path) ->
           CDPCallFrame.url cf = "file://" ++ String "/" path)
       /\ (fileName frame = Some "" \/ fileName frame = None -> CDPCallFrame.url cf = "")
       /\ (functionName frame = None -> CDPCallFrame.functionName cf = "")
       /\ (lineNumber frame = None -> CDPCallFrame.lineNumber cf = 0%Z)
       /\ (columnNumber frame = None -> CDPCallFrame.columnNumber cf = 0%Z).
Proof.
  intros frame. split; [reflexivity|].
  apply (constructor_callFrames HeaderPipe.Headers "k3x9q2" [frame] 0 frame). reflexivity.
Defined.

Example callFrame_file_url :
  map (fun f => CDPCallFrame.url (RequestDetail.callFrame f))
    [{| fileName := Some "/srv/app/index.js"; functionName := Some "main";
        lineNumber := Some 12%Z; columnNumber := Some 3%Z |};
     {| fileName := Some "node:internal/process"; functionName := None;
        lineNumber := None; columnNumber := None |};
     {| fileName := None; functionName := None; lineNumber := None; columnNumber := None |}]
  = ["file:///srv/app/index.js"; "node:internal/process"; ""].
Proof. reflexivity. Qed.

(** ** The launch of the browser *)

(** C6, amended: when the server starts listening it launches the
    browser on the inspector url whatever the value of
    NETWORK_DEBUG_MODE, so also when IS_DEV_MODE is true; the launch
    precedes the wait for the remote debugger. *)
Theorem open_launches_in_any_mode mode platform debugger_port remote srv fuel :
  let h := {| Browser.NETWORK_DEBUG_MODE := mode;
              Browser.platform := platform;
              Browser.REMOTE_DEBUGGER_PORT := debugger_port;
              Browser.remoteJSON := remote |} in
  Browser.launches (fst (Browser.on_listening h srv fuel)) = true
  /\ exists arguments,
       In (Browser.Launch (Browser.inspectorUrl (DevtoolServer.port srv)) arguments)
          (fst (Browser.on_listening h srv fuel)).
Proof.
  intros h. unfold Browser.on_listening, Browser.open.
  set (tried := match Browser.remoteJSON h 0 with Some _ => _ | None => _ end).
  set (launch := Browser.Launch _ _).
  assert (L : forall rest, Browser.launches (tried ++ launch :: rest) = true).
  { intros rest. unfold Browser.launches. rewrite existsb_app. cbn.
    apply orb_true_r. }
  assert (I : forall rest, In launch (tried ++ launch :: rest))
    by (intros rest; apply in_elt).
  destruct (negb _).
  - destruct (Browser.poll h fuel 1) as [[|e json]|]; cbn [fst];
      (split; [apply L|eexists; apply I]).
  - cbn [fst]. split; [apply L|eexists; apply I].
Qed.

(** With NETWORK_DEBUG_MODE=true the dev mode is on, and the server
    launches the browser all the same. *)
Lemma devMode_launch_counterexample :
  let h := Fixture.host (Some "true") in
  IS_DEV_MODE (Browser.NETWORK_DEBUG_MODE h) = true
  /\ fst (Browser.on_listening h (fst Fixture.state) 5)
     = [Browser.Launch "devtools://devtools/bundled/inspector.html?ws=localhost:5270"
          ["--remote-debugging-port=9333"];
        Browser.DebuggerWs "ws://127.0.0.1:9333/devtools/page/1"
          (Browser.Page_navigate
             "devtools://devtools/bundled/inspector.html?ws=localhost:5270")]
  /\ Browser.launches (fst (Browser.on_listening h (fst Fixture.state) 5)) = true.
Proof. split; [|split]; vm_compute; reflexivity. Qed.

(** * Part III: further properties of the code *)

(** ** Any sequence of calls *)

Section CallsFacts.
Import DevtoolServer Calls.
Context {Headers : Type} `{RequestHeaderPipe Headers}.

Implicit Types (st : State Headers) (c : Call Headers) (cs : list (Call Headers)).

Lemma stamp_shift st st' a k :
  clock (snd st') = clock (snd st) ->
  startTime (fst st') = startTime (fst st) ->
  reads (snd st') = (a + reads (snd st))%nat ->
  stamp st' k = stamp st (a + k).
Proof.
  intros Hc Hs Hr. unfold stamp. rewrite Hc, Hs, Hr.
  do 3 f_equal. lia.
Qed.

Lemma map_seq_shift {A : Type} (f : nat -> A) a n : forall s,
  map (fun k => f (a + k)%nat) (seq s n) = map f (seq (a + s) n).
Proof.
  induction n as [|n IH]; intros s; [reflexivity|].
  cbn [seq map]. rewrite IH, Nat.add_succ_r. reflexivity.
Qed.

Lemma call_exec c st :
  exists ms,
    exec (call c) st =
    ({| port := port (fst st);
        timestamp := stamp st (pred (messages c));
        startTime := startTime (fst st) |},
     {| clock := clock (snd st);
        reads := messages c + reads (snd st);
        wire := wire (snd st) ++ ms |})
    /\ map Msg.timestamp ms = map (stamp st) (seq 0 (messages c))
    /\ map Msg.requestId ms = repeat (RequestDetail.id (record c)) (messages c).
Proof.
  destruct st as [srv w], c as [request|request]; unfold exec; cbn [call].
  - rewrite requestWillBeSent_run. eexists. repeat split.
  - rewrite responseReceived_run. eexists. repeat split.
Qed.

Lemma run_cons c cs st : exec (run (c :: cs)) st = exec (run cs) (exec (call c) st).
Proof. unfold exec. cbn [run]. unfold bind. now destruct (call c st). Qed.

Lemma run_exec cs : forall st,
  exists ms,
    wire (snd (exec (run cs) st)) = (wire (snd st) ++ ms)%list
    /\ clock (snd (exec (run cs) st)) = clock (snd st)
    /\ startTime (fst (exec (run cs) st)) = startTime (fst st)
    /\ port (fst (exec (run cs) st)) = port (fst st)
    /\ reads (snd (exec (run cs) st)) = (total cs + reads (snd st))%nat
    /\ map Msg.timestamp ms = map (stamp st) (seq 0 (total cs))
    /\ map Msg.requestId ms = requestIds cs.
Proof.
  induction cs as [|c cs IH]; intros st.
  - exists []. cbn. rewrite app_nil_r. repeat split.
  - rewrite run_cons.
    destruct (call_exec c st) as (ms1 & E1 & T1 & I1).
    destruct (IH (exec (call c) st)) as (ms2 & W & C & S & P & R & T2 & I2).
    rewrite E1 in W, C, S, P, R |- *.
    cbn [fst snd wire clock startTime port reads] in W, C, S, P, R.
    exists (ms1 ++ ms2)%list. rewrite W, C, S, P, R.
    split; [now rewrite app_assoc|]. do 3 (split; [reflexivity|]).
    unfold total in *. cbn [map].
    change (list_sum (messages c :: map messages cs))
      with (messages c + list_sum (map messages cs))%nat.
    split; [lia|]. split.
    + rewrite map_app, T1, T2, seq_app, map_app. f_equal.
      rewrite (Nat.add_comm 0), <- map_seq_shift. apply map_ext. intros k.
      apply stamp_shift; rewrite E1; reflexivity.
    + rewrite map_app, I1, I2. reflexivity.
Qed.

(** Every state the two methods reach from a constructed server is later
    than the constructed one. *)
Lemma run_later cs st : later st (exec (run cs) st).
Proof.
  destruct (run_exec cs st) as (ms & _ & C & S & _ & R & _).
  unfold later. rewrite C, S, R. repeat split. lia.
Qed.

(** X1: whatever sequence of calls of requestWillBeSent and
    responseReceived is run, every message written takes one reading of
    the clock of its own, in the order of writing; the wire only grows,
    and the port and the start time of the server stay as they were. *)
Theorem run_one_reading_per_message cs st :
  exists ms,
    emits (run cs) st ms
    /\ length ms = total cs
    /\ map Msg.timestamp ms = map (stamp st) (seq 0 (total cs))
    /\ reads (snd (exec (run cs) st)) = (length ms + reads (snd st))%nat
    /\ clock (snd (exec (run cs) st)) = clock (snd st)
    /\ startTime (fst (exec (run cs) st)) = startTime (fst st)
    /\ port (fst (exec (run cs) st)) = port (fst st).
Proof.
  destruct (run_exec cs st) as (ms & W & C & S & P & R & T & _).
  assert (L : length ms = total cs).
  { rewrite <- (length_map Msg.timestamp), T, length_map. apply length_seq. }
  exists ms. rewrite L. now repeat split.
Qed.

(** X2: in any sequence of calls, the messages of one call stand together
    on the wire, in the order of the calls, and each carries the id of
    the record its call was given. *)
Theorem run_requestIds cs st :
  exists ms,
    emits (run cs) st ms
    /\ map Msg.requestId ms = requestIds cs.
Proof.
  destruct (run_exec cs st) as (ms & W & _ & _ & _ & _ & _ & I).
  now exists ms.
Qed.

Lemma stamps_sorted st a n :
  monotone (clock (snd st)) ->
  StronglySorted Qle (map (stamp st) (seq a n)).
Proof.
  intros Hm. revert a. induction n as [|n IH]; intros a; cbn [seq map].
  - constructor.
  - constructor; [apply IH|].
    apply Forall_forall. intros q Hq.
    apply in_map_iff in Hq as (k & <- & Hk). apply in_seq in Hk.
    apply stamp_le; [exact Hm|lia].
Qed.

(** X3: when the clock does not run backwards, the timestamps of the
    messages written by any sequence of calls never decrease along the
    wire, across records as well as within one. *)
Theorem run_timestamps_sorted cs st :
  monotone (clock (snd st)) ->
  exists ms,
    emits (run cs) st ms
    /\ StronglySorted Qle (map Msg.timestamp ms).
Proof.
  intros Hm. destruct (run_exec cs st) as (ms & W & _ & _ & _ & _ & T & _).
  exists ms. split; [exact W|]. rewrite T. now apply stamps_sorted.
Qed.

(** X4: on a server built by the constructor, with a clock that does not
    run backwards, no message ever carries a negative timestamp. *)
Theorem constructed_timestamps_nonnegative port' w cs :
  monotone (clock w) ->
  exists ms,
    emits (run cs) (constructor port' w) ms
    /\ Forall (fun m => (0 <= Msg.timestamp m)%Q) ms.
Proof.
  intros Hm. destruct (run_exec cs (constructor port' w)) as (ms & W & _ & _ & _ & _ & T & _).
  exists ms. split; [exact W|].
  apply Forall_map with (f := Msg.timestamp) (P := fun q => (0 <= q)%Q).
  rewrite T. apply Forall_map, Forall_forall. intros k _.
  unfold stamp, Qle. cbn [Qnum Qden fst snd constructor Date_now clock reads startTime].
  assert (clock w (reads w) <= clock w (k + S (reads w)))%Z by (apply Hm; lia).
  lia.
Qed.

End CallsFacts.

(** ** The socket promise *)

Section EndpointFacts.
Import Endpoint.
Context {Message : Type}.

Implicit Types (e : t Message) (evs : list (Event Message)) (rs : list (Reaction Message))
  (out : list (Socket * Message)).

Lemma fold_runReaction_messages rs : forall l0 out,
  map snd (snd (fold_left runReaction rs (l0, out))) = (map snd out ++ resumes rs)%list.
Proof.
  induction rs as [|[m|s] rs IH]; intros l0 out; cbn [fold_left runReaction resumes].
  - now rewrite app_nil_r.
  - rewrite IH, map_app, <- app_assoc. reflexivity.
  - apply IH.
Qed.

Lemma resumes_app rs rs' : resumes (rs ++ rs') = (resumes rs ++ resumes rs')%list.
Proof.
  induction rs as [|[m|s] rs IH]; cbn [app resumes]; [reflexivity| |exact IH].
  now rewrite IH.
Qed.

Lemma step_messages e ev :
  (map snd (sent (step e ev)) ++ waiting (step e ev)
   = (map snd (sent e) ++ waiting e) ++ sends [ev])%list.
Proof.
  destruct e as [[rs|l0] out], ev as [s|m];
    cbn [step connection send then_ resolve socket sent waiting sends runReaction].
  - destruct (fold_left runReaction (rs ++ [Assign s]) (s, out)) as [l0 out'] eqn:E.
    cbn [socket sent waiting].
    pose proof (fold_runReaction_messages (rs ++ [Assign s]) s out) as F.
    rewrite E, resumes_app in F. cbn [snd resumes] in F.
    now rewrite F, !app_nil_r.
  - cbn [socket sent waiting]. now rewrite resumes_app, app_assoc.
  - cbn [socket sent waiting]. now rewrite !app_nil_r.
  - cbn [socket sent waiting]. now rewrite map_app, !app_nil_r.
Qed.

Lemma steps_messages evs : forall e,
  (map snd (sent (steps evs e)) ++ waiting (steps evs e)
   = (map snd (sent e) ++ waiting e) ++ sends evs)%list.
Proof.
  induction evs as [|ev evs IH]; intros e; cbn [steps fold_left].
  - cbn [sends]. now rewrite app_nil_r.
  - fold (steps evs (step e ev)). rewrite IH, step_messages.
    rewrite <- app_assoc. f_equal. now destruct ev.
Qed.

(** X5: whatever the order of connections and sends after the
    constructor, no message is lost, repeated or overtaken: the messages
    handed to sockets followed by those still waiting are the messages
    sent, in the order of the sends. *)
Theorem endpoint_conserves_messages evs :
  (map snd (sent (steps evs init)) ++ waiting (steps evs init))%list = sends evs.
Proof.
  rewrite steps_messages.
  cbn [init sent socket waiting resumes map app].
  reflexivity.
Qed.

Lemma steps_fulfilled evs : forall l0 out first,
  sent (steps evs {| socket := Fulfilled l0; sent := out |})
  = (out ++ map (deliver first) (route (Some l0) evs))%list
  /\ waiting (steps evs {| socket := Fulfilled l0; sent := out |}) = [].
Proof.
  induction evs as [|[s|m] evs IH]; intros l0 out first; cbn [steps fold_left route map].
  - now rewrite app_nil_r.
  - apply (IH s out first).
  - cbn [step send then_ socket sent runReaction].
    fold (steps evs {| socket := Fulfilled l0; sent := (out ++ [(l0, m)])%list |}).
    destruct (IH l0 (out ++ [(l0, m)])%list first) as [-> ->].
    now rewrite <- app_assoc.
Qed.

Lemma fold_runReaction_resume ms : forall l0 out,
  fold_left runReaction (map (@Resume Message) ms) (l0, out)
  = (l0, (out ++ map (pair l0) ms)%list).
Proof.
  induction ms as [|m ms IH]; intros l0 out; cbn [map fold_left runReaction].
  - now rewrite app_nil_r.
  - rewrite IH, <- app_assoc. reflexivity.
Qed.

Lemma steps_pending evs : forall ms,
  match firstConnection evs with
  | Some first =>
      sent (steps evs {| socket := Pending (map (@Resume Message) ms); sent := [] |})
      = (map (pair first) ms ++ map (deliver first) (route None evs))%list
      /\ waiting (steps evs {| socket := Pending (map (@Resume Message) ms); sent := [] |}) = []
  | None =>
      sent (steps evs {| socket := Pending (map (@Resume Message) ms); sent := [] |}) = []
      /\ waiting (steps evs {| socket := Pending (map (@Resume Message) ms); sent := [] |})
         = (ms ++ sends evs)%list
  end.
Proof.
  induction evs as [|[s|m] evs IH]; intros ms; cbn [firstConnection].
  - cbn [steps fold_left sent waiting socket sends]. rewrite app_nil_r. split; [reflexivity|].
    induction ms as [|m ms IHms]; cbn [map resumes]; [reflexivity|now rewrite IHms].
  - cbn [steps fold_left step connection then_ resolve socket sent route].
    rewrite fold_left_app, fold_runReaction_resume. cbn [fold_left runReaction app].
    apply (steps_fulfilled evs s (map (pair s) ms) s).
  - cbn [steps fold_left step send then_ socket sent route sends map].
    replace (map (@Resume Message) ms ++ [Resume m])%list
      with (map (@Resume Message) (ms ++ [m])) by now rewrite map_app.
    specialize (IH (ms ++ [m])%list). unfold steps in IH.
    destruct (firstConnection evs) as [first|].
    + destruct IH as [-> ->]. now rewrite map_app, <- app_assoc.
    + destruct IH as [-> ->]. now rewrite <- app_assoc.
Qed.

(** X6: once a socket has connected, every message sent so far has been
    handed to a socket and none waits: a message sent before the first
    connection went to the first socket, and any other to the socket
    that had connected last when it was sent. *)
Theorem endpoint_routes_to_latest_socket evs first :
  firstConnection evs = Some first ->
  sent (steps evs init) = map (deliver first) (route None evs)
  /\ waiting (steps evs init) = [].
Proof.
  intros F. pose proof (steps_pending evs []) as P. rewrite F in P. exact P.
Qed.

(** X7: as long as no socket has connected, nothing is handed to any
    socket and every message sent waits, in the order of the sends. *)
Theorem endpoint_waits_for_first_connection evs :
  firstConnection evs = None ->
  sent (steps evs init) = [] /\ waiting (steps evs init) = sends evs.
Proof.
  intros F. pose proof (steps_pending evs []) as P. rewrite F in P. exact P.
Qed.

End EndpointFacts.

(** ** [open] and [close] *)

Module BrowserFacts.
Import Browser.

Lemma findIndex_ge url l : (-1 <= findIndex url l)%Z.
Proof.
  induction l as [|e l IH]; cbn [findIndex]; [lia|].
  destruct (String.eqb _ _); [lia|].
  destruct (Z.eqb_spec (findIndex url l) (-1)); lia.
Qed.

Lemma findIndex_none url l :
  Forall (fun x => DebuggerJSON.url x <> url) l -> findIndex url l = (-1)%Z.
Proof.
  induction 1 as [|e l He _ IH]; cbn [findIndex]; [reflexivity|].
  destruct (String.eqb_spec (DebuggerJSON.url e) url) as [E|_]; [now elim He|].
  now rewrite IH.
Qed.

Lemma findIndex_first url pre e post :
  Forall (fun x => DebuggerJSON.url x <> url) pre ->
  DebuggerJSON.url e = url ->
  findIndex url (pre ++ e :: post) = Z.of_nat (length pre).
Proof.
  intros Hpre He. induction Hpre as [|x pre Hx _ IH]; cbn [findIndex app length].
  - now rewrite He, String.eqb_refl.
  - destruct (String.eqb_spec (DebuggerJSON.url x) url) as [E|_]; [now elim Hx|].
    rewrite IH. destruct (Z.eqb_spec (Z.of_nat (length pre)) (-1)); lia.
Qed.

(** The effects of the [try] block. *)
Lemma open_tried h srv fuel :
  exists tried after,
    fst (open h srv fuel)
    = (tried ++ Launch (inspectorUrl (DevtoolServer.port srv))
                  [if negb (String.eqb (platform h) "darwin")
                   then ("--remote-debugging-port=" ++ JSString.ofZ (REMOTE_DEBUGGER_PORT h))%string
                   else ""] :: after)%list
    /\ tried =
       match remoteJSON h 0 with
       | Some dbHistoryJson =>
           let idx := findIndex (inspectorUrl (DevtoolServer.port srv)) dbHistoryJson in
           if negb (idx =? -1)%Z
           then match nth_error dbHistoryJson (Z.to_nat idx) with
                | Some e => [DebuggerWs (DebuggerJSON.webSocketDebuggerUrl e) Page_close]
                | None => []
                end
           else []
       | None => []
       end
    /\ after =
       (if negb (String.eqb (platform h) "darwin")
        then match poll h fuel 1 with
             | Some (e :: _) =>
                 [DebuggerWs (DebuggerJSON.webSocketDebuggerUrl e)
                    (Page_navigate (inspectorUrl (DevtoolServer.port srv)))]
             | _ => []
             end
        else [])
    /\ snd (open h srv fuel) =
       (if negb (String.eqb (platform h) "darwin")
        then match poll h fuel 1 with
             | Some (_ :: _) => Returned
             | Some [] => Threw
             | None => Waiting
             end
        else Returned).
Proof.
  unfold open, manageDebuggerWs.
  destruct (negb (String.eqb (platform h) "darwin")).
  - destruct (poll h fuel 1) as [[|e json]|]; cbn [fst snd];
      do 2 eexists; repeat split.
  - cbn [fst snd]. do 2 eexists. repeat split.
Qed.

(** X8: a call of open calls the launcher exactly once, on the inspector
    url; it constructs at most one debugger socket for Page.close and at
    most one for Page.navigate, and the one for Page.navigate only after
    it has called the launcher. *)
Theorem open_launches_once h srv fuel :
  length (filter isLaunch (fst (open h srv fuel))) = 1%nat
  /\ (forall url arguments,
        In (Launch url arguments) (fst (open h srv fuel)) ->
        url = inspectorUrl (DevtoolServer.port srv))
  /\ (length (filter isCloseSocket (fst (open h srv fuel))) <= 1)%nat
  /\ (length (filter isNavigateSocket (fst (open h srv fuel))) <= 1)%nat
  /\ (forall pre x post,
        fst (open h srv fuel) = (pre ++ x :: post)%list ->
        isNavigateSocket x = true -> existsb isLaunch pre = true).
Proof.
  destruct (open_tried h srv fuel) as (tried & after & E & T & A & _).
  rewrite E. clear E.
  assert (Ht : tried = [] \/ exists u, tried = [DebuggerWs u Page_close]).
  { rewrite T. destruct (remoteJSON h 0) as [js|]; [|now left].
    cbv zeta. destruct (negb (findIndex _ _ =? -1)%Z); [|now left].
    destruct (nth_error _ _); [right; eauto|now left]. }
  assert (Ha : after = []
               \/ exists u, after = [DebuggerWs u
                                       (Page_navigate (inspectorUrl (DevtoolServer.port srv)))]).
  { rewrite A. destruct (negb (platform h =? _)%string); [|now left].
    destruct (poll h fuel 1) as [[|e json]|]; [now left|right; eauto|now left]. }
  clear T A.
  destruct Ht as [->|[u ->]], Ha as [->|[v ->]]; cbn [app filter isLaunch isCloseSocket
    isNavigateSocket length];
    (split; [reflexivity|]); (split; [|split; [lia|split; [lia|]]]);
    try (intros url arguments Hin; cbn [In] in Hin;
         repeat match goal with
                | D : _ \/ _ |- _ => destruct D as [D|D]
                end; try discriminate; try contradiction;
         now injection Hin as <- _);
    intros pre x post Hl Hx;
    repeat (destruct pre as [|? pre]; cbn [app] in Hl;
            [injection Hl as <-; intros; subst; cbn in Hx |- *;
             try discriminate; try reflexivity
            |injection Hl as <- Hl]);
    destruct pre; discriminate.
Qed.

(** X9: when the remote debugger lists tabs, open constructs the debugger
    socket that is to send Page.close for exactly one of them: the first
    whose url is the inspector url. *)
Theorem open_close_socket_for_first_stale_tab h srv fuel pre e post :
  remoteJSON h 0 = Some (pre ++ e :: post)%list ->
  Forall (fun x => DebuggerJSON.url x <> inspectorUrl (DevtoolServer.port srv)) pre ->
  DebuggerJSON.url e = inspectorUrl (DevtoolServer.port srv) ->
  In (DebuggerWs (DebuggerJSON.webSocketDebuggerUrl e) Page_close) (fst (open h srv fuel))
  /\ (forall socketUrl,
        In (DebuggerWs socketUrl Page_close) (fst (open h srv fuel)) ->
        socketUrl = DebuggerJSON.webSocketDebuggerUrl e)
  /\ length (filter isCloseSocket (fst (open h srv fuel))) = 1%nat.
Proof.
  intros R Hpre He.
  destruct (open_tried h srv fuel) as (tried & after & E & T & A & _).
  rewrite R in T. cbv zeta in T. rewrite (findIndex_first _ _ _ _ Hpre He) in T.
  replace (negb (Z.of_nat (length pre) =? -1)%Z) with true in T
    by (symmetry; apply negb_true_iff, Z.eqb_neq; lia).
  rewrite Nat2Z.id, nth_error_app2, Nat.sub_diag in T by apply le_n.
  cbn [nth_error] in T. subst tried. rewrite E. clear E.
  assert (Ha : after = []
               \/ exists u, after = [DebuggerWs u
                                       (Page_navigate (inspectorUrl (DevtoolServer.port srv)))]).
  { rewrite A. destruct (negb (platform h =? _)%string); [|now left].
    destruct (poll h fuel 1) as [[|x json]|]; [now left|right; eauto|now left]. }
  clear A.
  destruct Ha as [->|[v ->]]; cbn [app filter isCloseSocket length In];
    (split; [now left|]); (split; [|reflexivity]);
    intros socketUrl Hin;
    repeat match goal with
           | D : _ \/ _ |- _ => destruct D as [D|D]
           end; try discriminate; try contradiction;
    now injection Hin as <-.
Qed.

(** X10: when the remote debugger does not answer, or lists no tab whose
    url is the inspector url, no tab is sent Page.close and the launch
    comes first. *)
Theorem open_without_stale_tab h srv fuel :
  (remoteJSON h 0 = None
   \/ exists js, remoteJSON h 0 = Some js
                 /\ Forall (fun x => DebuggerJSON.url x <> inspectorUrl (DevtoolServer.port srv)) js) ->
  exists arguments after,
    fst (open h srv fuel) = Launch (inspectorUrl (DevtoolServer.port srv)) arguments :: after
    /\ Forall (fun x => ~ isPageClose x) (fst (open h srv fuel)).
Proof.
  intros Hr.
  destruct (open_tried h srv fuel) as (tried & after & E & T & A & _).
  assert (tried = []) as ->.
  { rewrite T. destruct Hr as [->|(js & -> & Hjs)]; [reflexivity|].
    cbv zeta. now rewrite (findIndex_none _ _ Hjs). }
  eexists. exists after. split; [exact E|]. rewrite E. cbn [app].
  constructor; [intros (u & [=])|].
  rewrite A. destruct (negb (platform h =? _)%string); [|constructor].
  destruct (poll h fuel 1) as [[|x json]|]; repeat constructor.
  intros (u & [=]).
Qed.

(** X11: on darwin, open passes the browser one empty argument, sends no
    Page.navigate, does not wait for the remote debugger and returns. *)
Theorem open_on_darwin h srv fuel :
  platform h = "darwin" ->
  snd (open h srv fuel) = Returned
  /\ open h srv fuel = open h srv 0
  /\ exists tried,
       fst (open h srv fuel)
       = (tried ++ [Launch (inspectorUrl (DevtoolServer.port srv)) [""]])%list
       /\ Forall isPageClose tried.
Proof.
  intros P. unfold open. rewrite P. cbn [String.eqb Ascii.eqb Bool.eqb negb fst snd].
  repeat split. eexists. split; [reflexivity|].
  destruct (remoteJSON h 0) as [js|]; [|constructor].
  destruct (negb (findIndex _ _ =? -1)%Z); [|constructor].
  destruct (nth_error _ _); repeat constructor. unfold isPageClose, manageDebuggerWs. eauto.
Qed.

(** The poll returns the first answer when the rounds observed reach it. *)
Lemma poll_first h k json : forall fuel start,
  (start <= k < start + fuel)%nat ->
  remoteJSON h k = Some json ->
  (forall j, (start <= j < k)%nat -> remoteJSON h j = None) ->
  poll h fuel start = Some json.
Proof.
  induction fuel as [|fuel IH]; intros start Hk Hj Hbefore; [lia|].
  cbn [poll]. destruct (Nat.eq_dec start k) as [->|Hne].
  - now rewrite Hj.
  - rewrite (Hbefore start) by lia. apply IH; [lia|exact Hj|].
    intros j Hjk. apply Hbefore. lia.
Qed.

Lemma poll_unanswered h : forall fuel start,
  (forall j, (start <= j < start + fuel)%nat -> remoteJSON h j = None) ->
  poll h fuel start = None.
Proof.
  induction fuel as [|fuel IH]; intros start Hn; [reflexivity|].
  cbn [poll]. rewrite (Hn start) by lia. apply IH. intros j Hj. apply Hn. lia.
Qed.


(** X13: elsewhere than on darwin, when the first answer of the remote
    debugger lists no tab, open throws after the launch: it sends no
    Page.navigate and does not store the browser process, so that close
    closes the server and kills nothing. *)
Theorem open_empty_answer_throws h srv fuel k :
  platform h <> "darwin" ->
  (1 <= k <= fuel)%nat ->
  remoteJSON h k = Some [] ->
  (forall j, (1 <= j < k)%nat -> remoteJSON h j = None) ->
  snd (open h srv fuel) = Threw
  /\ launches (fst (open h srv fuel)) = true
  /\ Forall (fun x => forall u url, x <> DebuggerWs u (Page_navigate url))
       (fst (open h srv fuel))
  /\ Lifecycle.close (Lifecycle.browser h srv fuel) = [Lifecycle.ServerClose].
Proof.
  intros P Hk Hj Hbefore.
  destruct (open_tried h srv fuel) as (tried & after & E & T & A & O).
  apply String.eqb_neq in P. rewrite P in *. cbn [negb] in *.
  rewrite (poll_first h k [] fuel 1) in A, O by (auto; lia).
  subst after. split; [exact O|]. split; [|split].
  - rewrite E. unfold launches. rewrite existsb_app. cbn. apply orb_true_r.
  - rewrite E, T. apply Forall_app. split; [|repeat constructor; discriminate].
    destruct (remoteJSON h 0) as [js|]; [|constructor].
    cbv zeta. destruct (negb (findIndex _ _ =? -1)%Z); [|constructor].
    destruct (nth_error _ _); repeat constructor. discriminate.
  - unfold Lifecycle.browser. destruct (open h srv fuel) as [effects o].
    cbn [snd] in O. now subst o.
Qed.

(** X14: close always closes the server; it kills the browser exactly
    when open had returned, and then the process it kills is the one open
    launched.  While open waits for the remote debugger, close kills
    nothing. *)
Theorem close_kills_only_a_stored_browser h srv fuel :
  (snd (open h srv fuel) = Returned ->
   exists arguments,
     In (Launch (inspectorUrl (DevtoolServer.port srv)) arguments) (fst (open h srv fuel))
     /\ Lifecycle.close (Lifecycle.browser h srv fuel)
        = [Lifecycle.ServerClose;
           Lifecycle.BrowserKill (Launch (inspectorUrl (DevtoolServer.port srv)) arguments)])
  /\ (snd (open h srv fuel) <> Returned ->
      Lifecycle.close (Lifecycle.browser h srv fuel) = [Lifecycle.ServerClose]).
Proof.
  destruct (open_tried h srv fuel) as (tried & after & E & T & _ & _).
  unfold Lifecycle.browser. destruct (open h srv fuel) as [effects o].
  cbn [fst snd] in *. split.
  - intros ->. eexists. split; [rewrite E; apply in_elt|].
    rewrite E. unfold Lifecycle.close. do 2 f_equal.
    assert (F : forall l, (forall x, In x tried -> isPageClose x) ->
                find (fun e => match e with Launch _ _ => true | _ => false end)
                     (tried ++ l) =
                find (fun e => match e with Launch _ _ => true | _ => false end) l).
    { clear. induction tried as [|x tried IH]; intros l Hc; [reflexivity|].
      cbn [app find]. destruct (Hc x (or_introl eq_refl)) as [u ->].
      apply IH. intros y Hy. apply Hc. now right. }
    rewrite F; [reflexivity|].
    rewrite T. destruct (remoteJSON h 0) as [js|]; [|intros x []].
    cbv zeta. destruct (negb (findIndex _ _ =? -1)%Z); [|intros x []].
    destruct (nth_error _ _); [|intros x []].
    intros x [<-|[]]. unfold isPageClose. eauto.
  - intros Ho. destruct o; [now elim Ho|reflexivity|reflexivity].
Qed.

End BrowserFacts.

(** ** The record and its projection *)

Section RecordFacts.
Import DevtoolServer.
Context {Headers : Type} `{RequestHeaderPipe Headers}.

Implicit Types (request : RequestDetail.t Headers) (st : State Headers).

(** X15: a constructed record has no initiator exactly when no stack
    frame was captured; otherwise its initiator has the type script and
    one call frame per captured frame. *)
Theorem constructor_initiator random_id frames :
  (RequestDetail.initiator (@RequestDetail.constructor Headers random_id frames) = None
   <-> frames = [])
  /\ (forall init,
        RequestDetail.initiator (@RequestDetail.constructor Headers random_id frames)
        = Some init ->
        Initiator.type init = "script"
        /\ length (Initiator.callFrames init) = length frames).
Proof.
  cbn [RequestDetail.constructor RequestDetail.initiator].
  destruct frames as [|f frames]; cbn [map length Nat.ltb Nat.leb].
  - split; [now split|discriminate].
  - split; [split; discriminate|].
    intros init [= <-]. cbn [Initiator.type Initiator.callFrames length].
    now rewrite length_map.
Qed.

(** X16: the url of a call frame never begins with a slash, and a file
    name that does not begin with one is kept as the url unchanged. *)
Theorem callFrame_url_not_rooted (frame : StackFrame) :
  JSString.startsWith "/" (CDPCallFrame.url (RequestDetail.callFrame frame)) = false
  /\ (forall name, fileName frame = Some name -> JSString.startsWith "/" name = false ->
      CDPCallFrame.url (RequestDetail.callFrame frame) = name).
Proof.
  unfold RequestDetail.callFrame. cbn [CDPCallFrame.url].
  destruct (fileName frame) as [name|]; cbn [JSString.orElse].
  - destruct name as [|a name]; cbn [JSString.truthy].
    + split; [reflexivity|]. now intros ? [= <-].
    + destruct (JSString.startsWith "/" (String a name)) eqn:E.
      * split; [reflexivity|]. intros ? [= <-]. congruence.
      * split; [exact E|]. now intros ? [= <-].
  - split; [reflexivity|discriminate].
Qed.

(** X17: a record straight from the constructor, with nothing captured
    yet, still projects: its requestWillBeSent has no postData and its
    responseReceived has an undefined status, the empty statusText, the
    type Other, the mimeType text/plain and undefined lengths. *)
Theorem fresh_record_projection random_id frames st st' :
  getHeader (Headers := Headers) None "content-type" = None ->
  let request := @RequestDetail.constructor Headers random_id frames in
  exists m1 rq m2 rs m3 m4,
    emits (requestWillBeSent request) st [m1]
    /\ Msg.request m1 = Some rq
    /\ CDPRequest.postData rq = None
    /\ emits (responseReceived request) st' [m2; m3; m4]
    /\ Msg.type m2 = Some "Other"
    /\ Msg.response m2 = Some rs
    /\ CDPResponse.status rs = None
    /\ CDPResponse.statusText rs = ""
    /\ CDPResponse.mimeType rs = "text/plain"
    /\ map MsgLength.encodedDataLength [m2; m3; m4] = [None; None; None]
    /\ MsgLength.dataLength m3 = None.
Proof.
  intros Hn request. do 6 eexists.
  split; [apply requestWillBeSent_emits|]. split; [reflexivity|]. split; [reflexivity|].
  split; [apply responseReceived_emits|].
  assert (E : responseContentType request = "text/plain; charset=utf-8")
    by (unfold responseContentType; cbn [request RequestDetail.constructor
          RequestDetail.responseHeaders]; now rewrite Hn).
  rewrite E. repeat split.
Qed.

(** X18: the mimeType computed by toMimeType is never empty and never
    contains a semicolon. *)
Theorem toMimeType_nonempty_no_semicolon contentType :
  toMimeType contentType <> ""
  /\ ~ JSString.occurs ";" (toMimeType contentType).
Proof.
  unfold toMimeType, JSString.orElse.
  pose proof (JSStringFacts.split0_no_sep ";" contentType) as N.
  destruct (JSString.split0 ";" contentType) as [|a s]; cbn [JSString.truthy].
  - split; [discriminate|]. now apply JSStringFacts.includes_false.
  - split; [discriminate|exact N].
Qed.

(** X19: toMimeType leaves a mimeType it computed unchanged. *)
Theorem toMimeType_idempotent contentType :
  toMimeType (toMimeType contentType) = toMimeType contentType.
Proof.
  destruct (toMimeType_nonempty_no_semicolon contentType) as [Hne Hno].
  unfold toMimeType at 1. rewrite (JSStringFacts.split0_id _ _ Hno).
  unfold JSString.orElse. now destruct (toMimeType contentType).
Qed.

Lemma string_length_append (s s' : string) :
  String.length (s ++ s') = (String.length s + String.length s')%nat.
Proof. induction s as [|a s IH]; cbn; [reflexivity|now rewrite IH]. Qed.

Lemma quoteChar_length a : (1 <= String.length (JSON.quoteChar a))%nat.
Proof.
  unfold JSON.quoteChar.
  repeat match goal with
         | |- context [match ?n with O => _ | S _ => _ end] => destruct n
         end; cbn; lia.
Qed.

Lemma quoteChars_length s : (String.length s <= String.length (JSON.quoteChars s))%nat.
Proof.
  induction s as [|a s IH]; cbn [JSON.quoteChars String.length]; [lia|].
  rewrite string_length_append. pose proof (quoteChar_length a). lia.
Qed.

Lemma QuoteJSONString_length s :
  (String.length s + 2 <= String.length (JSON.QuoteJSONString s))%nat.
Proof.
  unfold JSON.QuoteJSONString. rewrite !string_length_append.
  pose proof (quoteChars_length s). cbn [JSON.chr String.length]. lia.
Qed.

(** X20: under a content-type that contains application/json, a body
    that is already a string is sent quoted as a JSON string, not as it
    is: the postData begins with a double quote and is at least two
    characters longer than the body. *)
Theorem postData_json_string_quoted request st s :
  RequestDetail.requestData request = Some (JStr s) ->
  s <> "" ->
  jsonLike request ->
  exists m rq,
    emits (requestWillBeSent request) st [m]
    /\ Msg.request m = Some rq
    /\ CDPRequest.postData rq = Some (JStr (JSON.QuoteJSONString s))
    /\ JSString.startsWith (JSON.chr 34) (JSON.QuoteJSONString s) = true
    /\ (String.length s + 2 <= String.length (JSON.QuoteJSONString s))%nat
    /\ JSON.QuoteJSONString s <> s.
Proof.
  intros Hd Hs Hj. do 2 eexists.
  split; [apply requestWillBeSent_emits|]. split; [reflexivity|].
  cbn [requestWillBeSent_message CDPRequest.postData]. rewrite Hd.
  apply includes_json_spec in Hj. rewrite Hj.
  destruct s as [|a s]; [now elim Hs|]. cbn [JSON.truthy JSString.truthy].
  split; [reflexivity|]. split; [reflexivity|].
  pose proof (QuoteJSONString_length (String a s)) as L.
  split; [exact L|]. intros E. rewrite E in L. lia.
Qed.

Lemma ofZ_nonempty n : JSString.ofZ n <> "".
Proof.
  unfold JSString.ofZ, NilZero.string_of_int.
  destruct (Z.to_int n) as [d|d]; [|discriminate].
  destruct d; discriminate.
Qed.

Lemma JSON_stringify_nonempty v : JSON_stringify v <> "".
Proof.
  destruct v as [|[|]|n|s|items|props]; cbn [JSON_stringify]; try discriminate.
  apply ofZ_nonempty.
Qed.

(** X21: a postData, when the message has one, is never a falsy value:
    in particular the serialisation of a body is never the empty
    string. *)
Theorem postData_truthy request st :
  exists m rq,
    emits (requestWillBeSent request) st [m]
    /\ Msg.request m = Some rq
    /\ (forall v, CDPRequest.postData rq = Some v -> JSON.truthy v = true)
    /\ (forall body, JSON_stringify body <> "").
Proof.
  do 2 eexists. split; [apply requestWillBeSent_emits|]. split; [reflexivity|].
  split; [|exact JSON_stringify_nonempty].
  cbn [requestWillBeSent_message CDPRequest.postData].
  destruct (RequestDetail.requestData request) as [body|]; [|discriminate].
  destruct (JSON.truthy body) eqn:T; [|discriminate].
  destruct (includes_json _); intros v [= <-]; [|exact T].
  cbn [JSON.truthy]. pose proof (JSON_stringify_nonempty body).
  now destruct (JSON_stringify body).
Qed.

End RecordFacts.

(** ** [register] *)

Module RegisterFacts.
Import Register.

Lemma registers_cons props calls m :
  registers (props :: calls) m = registers calls (register props m).
Proof. reflexivity. Qed.

(** X22: every call of register puts one more proxy around the request
    function of http and of https, with isHttps false and true, and calls
    proxyFetch once more, all three with the main process that call
    created; it never unwraps, so a second call wraps the first's proxy
    and the platform's own function stays innermost. *)
Theorem registers_layers calls : forall m,
  layers (http_request (registers calls m))
  = (rev (map (fun props => (false, mainProcessOf props)) calls) ++ layers (http_request m))%list
  /\ layers (https_request (registers calls m))
     = (rev (map (fun props => (true, mainProcessOf props)) calls)
        ++ layers (https_request m))%list
  /\ innermost (http_request (registers calls m)) = innermost (http_request m)
  /\ innermost (https_request (registers calls m)) = innermost (https_request m)
  /\ proxyFetch (registers calls m) = (proxyFetch m ++ map mainProcessOf calls)%list.
Proof.
  induction calls as [|props calls IH]; intros m.
  - cbn. now rewrite app_nil_r.
  - rewrite registers_cons.
    destruct (IH (register props m)) as (L1 & L2 & I1 & I2 & F).
    rewrite L1, L2, I1, I2, F. cbn [map rev].
    destruct props as [[p s]|]; cbn [register http_request https_request proxyFetch
                                      layers innermost];
      rewrite <- !app_assoc; repeat split.
Qed.

End RegisterFacts.

(** ** The further properties on concrete runs *)

Lemma run_timestamps_sorted_witness :
  monotone (DevtoolServer.clock (snd Fixture.state))
  /\ exists ms,
       DevtoolServer.emits (Calls.run Scenario.calls) Fixture.state ms
       /\ StronglySorted Qle (map Msg.timestamp ms).
Proof.
  split; [exact fixture_clock_monotone|].
  apply (run_timestamps_sorted Scenario.calls Fixture.state fixture_clock_monotone).
Defined.

Lemma constructed_timestamps_nonnegative_witness :
  monotone (DevtoolServer.clock Fixture.world)
  /\ exists ms,
       DevtoolServer.emits (Calls.run Scenario.calls)
         (DevtoolServer.constructor 5270 Fixture.world) ms
       /\ Forall (fun m => (0 <= Msg.timestamp m)%Q) ms.
Proof.
  split; [exact fixture_clock_monotone|].
  apply (constructed_timestamps_nonnegative 5270 Fixture.world Scenario.calls
           fixture_clock_monotone).
Defined.

(** Two records in flight: eight messages, grouped by call. *)
Example run_calls :
  map (fun m => (Msg.method m, Msg.requestId m, Msg.timestamp m))
    (DevtoolServer.wire (snd (DevtoolServer.exec (Calls.run Scenario.calls) Fixture.state)))
  = [("Network.requestWillBeSent", "k3x9q2", 7 # 1000);
     ("Network.requestWillBeSent", "p0w7aa", 14 # 1000);
     ("Network.responseReceived", "k3x9q2", 21 # 1000);
     ("Network.dataReceived", "k3x9q2", 28 # 1000);
     ("Network.loadingFinished", "k3x9q2", 35 # 1000);
     ("Network.responseReceived", "p0w7aa", 42 # 1000);
     ("Network.dataReceived", "p0w7aa", 49 # 1000);
     ("Network.loadingFinished", "p0w7aa", 56 # 1000)].
Proof. vm_compute. reflexivity. Qed.

Lemma endpoint_routes_to_latest_socket_witness :
  Endpoint.firstConnection Scenario.events = Some 0%nat
  /\ Endpoint.sent (Endpoint.steps Scenario.events Endpoint.init)
     = map (Endpoint.deliver 0%nat) (Endpoint.route None Scenario.events)
  /\ Endpoint.waiting (Endpoint.steps Scenario.events Endpoint.init) = [].
Proof.
  split; [reflexivity|].
  apply (endpoint_routes_to_latest_socket Scenario.events 0%nat). reflexivity.
Defined.

Example endpoint_run :
  Endpoint.sent (Endpoint.steps Scenario.events Endpoint.init)
  = [(0%nat, "a"); (0%nat, "b"); (0%nat, "c"); (1%nat, "d")].
Proof. reflexivity. Qed.

Lemma endpoint_waits_for_first_connection_witness :
  let evs := [Endpoint.Send "a"; Endpoint.Send "b"] in
  Endpoint.firstConnection evs = None
  /\ Endpoint.sent (Endpoint.steps evs Endpoint.init) = []
  /\ Endpoint.waiting (Endpoint.steps evs Endpoint.init) = Endpoint.sends evs.
Proof.
  intros evs. split; [reflexivity|].
  apply (endpoint_waits_for_first_connection evs). reflexivity.
Defined.

Lemma open_close_socket_for_first_stale_tab_witness :
  let srv := fst Fixture.state in
  let pre := [Scenario.tab "1" "about:blank"] in
  let e := Scenario.tab "2" Scenario.inspector in
  let post := [Scenario.tab "3" Scenario.inspector] in
  Browser.remoteJSON Scenario.staleHost 0 = Some (pre ++ e :: post)%list
  /\ Forall (fun x => DebuggerJSON.url x <> Browser.inspectorUrl (DevtoolServer.port srv)) pre
  /\ DebuggerJSON.url e = Browser.inspectorUrl (DevtoolServer.port srv)
  /\ In (Browser.DebuggerWs (DebuggerJSON.webSocketDebuggerUrl e) Browser.Page_close)
        (fst (Browser.open Scenario.staleHost srv 4))
  /\ (forall socketUrl,
        In (Browser.DebuggerWs socketUrl Browser.Page_close)
           (fst (Browser.open Scenario.staleHost srv 4)) ->
        socketUrl = DebuggerJSON.webSocketDebuggerUrl e)
  /\ length (filter isCloseSocket (fst (Browser.open Scenario.staleHost srv 4))) = 1%nat.
Proof.
  intros srv pre e post.
  assert (Hpre : Forall (fun x => DebuggerJSON.url x
                                  <> Browser.inspectorUrl (DevtoolServer.port srv)) pre)
    by (repeat constructor; vm_compute; discriminate).
  split; [reflexivity|]. split; [exact Hpre|]. split; [reflexivity|].
  apply (BrowserFacts.open_close_socket_for_first_stale_tab
           Scenario.staleHost srv 4 pre e post);
    [reflexivity|exact Hpre|reflexivity].
Defined.

Lemma open_without_stale_tab_witness :
  let srv := fst Fixture.state in
  (Browser.remoteJSON (Fixture.host None) 0 = None
   \/ exists js, Browser.remoteJSON (Fixture.host None) 0 = Some js
                 /\ Forall (fun x => DebuggerJSON.url x
                                     <> Browser.inspectorUrl (DevtoolServer.port srv)) js)
  /\ exists arguments after,
       fst (Browser.open (Fixture.host None) srv 5)
       = Browser.Launch (Browser.inspectorUrl (DevtoolServer.port srv)) arguments :: after
       /\ Forall (fun x => ~ isPageClose x) (fst (Browser.open (Fixture.host None) srv 5)).
Proof.
  intros srv. split; [left; reflexivity|].
  apply (BrowserFacts.open_without_stale_tab (Fixture.host None) srv 5). left. reflexivity.
Defined.

Lemma open_on_darwin_witness :
  let srv := fst Fixture.state in
  Browser.platform Scenario.darwinHost = "darwin"
  /\ snd (Browser.open Scenario.darwinHost srv 3) = Browser.Returned
  /\ Browser.open Scenario.darwinHost srv 3 = Browser.open Scenario.darwinHost srv 0
  /\ exists tried,
       fst (Browser.open Scenario.darwinHost srv 3)
       = (tried ++ [Browser.Launch (Browser.inspectorUrl (DevtoolServer.port srv)) [""]])%list
       /\ Forall isPageClose tried.
Proof.
  intros srv. split; [reflexivity|].
  apply (BrowserFacts.open_on_darwin Scenario.darwinHost srv 3). reflexivity.
Defined.


Lemma open_empty_answer_throws_witness :
  let srv := fst Fixture.state in
  let h := Scenario.emptyHost in
  Browser.platform h <> "darwin"
  /\ (1 <= 2 <= 4)%nat
  /\ Browser.remoteJSON h 2 = Some []
  /\ (forall j, (1 <= j < 2)%nat -> Browser.remoteJSON h j = None)
  /\ snd (Browser.open h srv 4) = Browser.Threw
  /\ Browser.launches (fst (Browser.open h srv 4)) = true
  /\ Forall (fun x => forall u url, x <> Browser.DebuggerWs u (Browser.Page_navigate url))
       (fst (Browser.open h srv 4))
  /\ Lifecycle.close (Lifecycle.browser h srv 4) = [Lifecycle.ServerClose].
Proof.
  intros srv h.
  assert (P : Browser.platform h <> "darwin") by discriminate.
  assert (K : (1 <= 2 <= 4)%nat) by lia.
  assert (B : forall j, (1 <= j < 2)%nat -> Browser.remoteJSON h j = None).
  { intros j Hj. destruct j as [|[|j]]; [lia|reflexivity|lia]. }
  split; [exact P|]. split; [exact K|]. split; [reflexivity|]. split; [exact B|].
  apply (BrowserFacts.open_empty_answer_throws h srv 4 2 P K eq_refl B).
Defined.

Lemma fresh_record_projection_witness :
  let request := @RequestDetail.constructor HeaderPipe.Headers "p0w7aa" [] in
  let st := Fixture.state in
  getHeader (Headers := HeaderPipe.Headers) None "content-type" = None
  /\ exists m1 rq m2 rs m3 m4,
       DevtoolServer.emits (DevtoolServer.requestWillBeSent request) st [m1]
       /\ Msg.request m1 = Some rq
       /\ CDPRequest.postData rq = None
       /\ DevtoolServer.emits (DevtoolServer.responseReceived request) st [m2; m3; m4]
       /\ Msg.type m2 = Some "Other"
       /\ Msg.response m2 = Some rs
       /\ CDPResponse.status rs = None
       /\ CDPResponse.statusText rs = ""
       /\ CDPResponse.mimeType rs = "text/plain"
       /\ map MsgLength.encodedDataLength [m2; m3; m4] = [None; None; None]
       /\ MsgLength.dataLength m3 = None.
Proof.
  intros request st. split; [reflexivity|].
  apply (fresh_record_projection "p0w7aa" [] st st). reflexivity.
Defined.

Lemma postData_json_string_quoted_witness :
  let request := Scenario.first in
  let s := "{}" in
  RequestDetail.requestData request = Some (JStr s)
  /\ s <> ""
  /\ jsonLike request
  /\ exists m rq,
       DevtoolServer.emits (DevtoolServer.requestWillBeSent request) Fixture.state [m]
       /\ Msg.request m = Some rq
       /\ CDPRequest.postData rq = Some (JStr (JSON.QuoteJSONString s))
       /\ JSString.startsWith (JSON.chr 34) (JSON.QuoteJSONString s) = true
       /\ (String.length s + 2 <= String.length (JSON.QuoteJSONString s))%nat
       /\ JSON.QuoteJSONString s <> s.
Proof.
  intros request s.
  assert (J : jsonLike request).
  { exists "application/json". split; [reflexivity|]. now exists "", "". }
  assert (N : s <> "") by discriminate.
  split; [reflexivity|]. split; [exact N|]. split; [exact J|].
  apply (postData_json_string_quoted request Fixture.state s eq_refl N J).
Defined.

Example registers_twice :
  let m := Register.registers [None; Some {| Register.port := Some 0%Z;
                                             Register.serverPort := None |}]
             Register.pristine in
  Register.layers (Register.http_request m)
  = [(false, {| Register.mp_port := 0; Register.mp_serverPort := 5271 |});
     (false, {| Register.mp_port := 5270; Register.mp_serverPort := 5271 |})]
  /\ Register.innermost (Register.https_request m) = Register.https.
Proof. split; reflexivity. Qed.
